(** * resume_improver: the resume writer of [extract.py]

    A shallow embedding of the bespoke logic of [extract.py]: the LLM client
    construction ([get_llm]), the DOCX reading tool ([DocxReaderTool._run]),
    the section formatter and document writer ([ResumeWriter]) and the
    line-oriented section parser of [format_resume].

    Python [str] values are sequences of Unicode code points, so they are
    modelled as lists of code points; slicing and [startswith] then count
    code points exactly as Python does. *)

From Stdlib Require Import List NArith String Ascii Bool Lia QArith.
Import ListNotations.
Close Scope Q_scope.

Set Implicit Arguments.

(* ================================================================== *)
(** ** Python strings *)
(* ================================================================== *)

Module PyStr.

(** A code point. *)
Definition char := N.

(** A Python [str]. *)
Definition str := list char.

(** An ASCII literal of the source as a [str]. *)
Definition py (s : string) : str :=
  map N_of_ascii (list_ascii_of_string s).

Fixpoint str_eqb (a b : str) : bool :=
  match a, b with
  | [], [] => true
  | x :: a', y :: b' => N.eqb x y && str_eqb a' b'
  | _, _ => false
  end.

(** Truth value of a [str]: only the empty string is falsy. *)
Definition truthy (s : str) : bool :=
  match s with [] => false | _ :: _ => true end.

(** Truth value of a list: only the empty list is falsy. *)
Definition truthy_list (A : Type) (l : list A) : bool :=
  match l with [] => false | _ :: _ => true end.

(** The code points that [str.strip()] removes (those for which
    [str.isspace] holds): U+0009..U+000D, U+001C..U+0020, U+0085, U+00A0,
    U+1680, U+2000..U+200A, U+2028, U+2029, U+202F, U+205F, U+3000. *)
Definition isspace (c : char) : bool :=
  ((9 <=? c) && (c <=? 13) || (28 <=? c) && (c <=? 32)
   || (c =? 133) || (c =? 160) || (c =? 5760)
   || (8192 <=? c) && (c <=? 8202)
   || (c =? 8232) || (c =? 8233) || (c =? 8239) || (c =? 8287)
   || (c =? 12288))%N.

Fixpoint lstrip (s : str) : str :=
  match s with
  | [] => []
  | c :: s' => if isspace c then lstrip s' else s
  end.

Definition rstrip (s : str) : str := rev (lstrip (rev s)).

(** [s.strip()] *)
Definition strip (s : str) : str := rstrip (lstrip s).

(** The line feed, ['\n']. *)
Definition nl : char := 10%N.

(** [s.split(sep)] for a one-character separator: never an empty list. *)
Fixpoint split_on (sep : char) (s : str) : list str :=
  match s with
  | [] => [[]]
  | c :: s' =>
      if N.eqb c sep then [] :: split_on sep s'
      else match split_on sep s' with
           | h :: t => (c :: h) :: t
           | [] => [[c]]
           end
  end.

(** [sep.join(parts)] for a one-character separator. *)
Fixpoint join (sep : char) (parts : list str) : str :=
  match parts with
  | [] => []
  | [p] => p
  | p :: rest => p ++ sep :: join sep rest
  end.

(** [s.startswith(prefix)] *)
Fixpoint startswith (s prefix : str) : bool :=
  match prefix, s with
  | [], _ => true
  | p :: prefix', c :: s' => N.eqb c p && startswith s' prefix'
  | _ :: _, [] => false
  end.

(** [s[n:]] *)
Definition slice_from (n : nat) (s : str) : str := skipn n s.

End PyStr.

Import PyStr.

(* ================================================================== *)
(** ** Insertion-ordered dictionaries with string keys *)
(* ================================================================== *)

(** A Python [dict] keeps its keys in insertion order, and assigning to an
    existing key leaves its position unchanged: an association list updated
    in place. *)
Definition dict := list (str * str).

(** [k in d] *)
Fixpoint dict_mem (k : str) (d : dict) : bool :=
  match d with
  | [] => false
  | (k', _) :: d' => str_eqb k' k || dict_mem k d'
  end.

(** [d[k] = v] *)
Fixpoint dict_set (k v : str) (d : dict) : dict :=
  match d with
  | [] => [(k, v)]
  | (k', v') :: d' =>
      if str_eqb k' k then (k', v) :: d' else (k', v') :: dict_set k v d'
  end.

(** [d.get(k)] *)
Fixpoint dict_get (k : str) (d : dict) : option str :=
  match d with
  | [] => None
  | (k', v') :: d' => if str_eqb k' k then Some v' else dict_get k d'
  end.

(** [d.keys()] *)
Definition dict_keys (d : dict) : list str := map fst d.

(* ================================================================== *)
(** ** The section parser of [format_resume] *)
(* ================================================================== *)

(** The four fixed section names, in the order of the dictionary literal. *)
Definition section_names : list str :=
  [ py "Professional Profile"; py "Recent Experience";
    py "Education"; py "Skills" ].

(** The dictionary literal [sections] of [format_resume]. *)
Definition sections_init : dict := map (fun k => (k, [])) section_names.

(** The variables of the scanning loop. *)
Record scan_state := {
  sections : dict;
  current_section : option str;       (* [None] or the active heading *)
  current_content : list str
}.

Definition scan_init : scan_state :=
  {| sections := sections_init;
     current_section := None;
     current_content := [] |}.

(** [if current_section and current_content:
        sections[current_section] = '\n'.join(current_content)] *)
Definition flush (st : scan_state) : dict :=
  match current_section st with
  | Some c =>
      if truthy c && truthy_list (current_content st)
      then dict_set c (join nl (current_content st)) (sections st)
      else sections st
  | None => sections st
  end.

(** One iteration of [for line in content.split('\n')], after
    [line = line.strip()]. *)
Definition scan_step (st : scan_state) (line : str) : scan_state :=
  if dict_mem line (sections st) then
    {| sections := flush st;
       current_section := Some line;
       current_content := [] |}
  else if truthy line
          && match current_section st with
             | Some c => truthy c
             | None => false
             end then
    {| sections := sections st;
       current_section := current_section st;
       current_content := current_content st ++ [line] |}
  else st.

(** One iteration, from the raw line. *)
Definition scan_line (st : scan_state) (raw : str) : scan_state :=
  scan_step st (strip raw).

(** The whole loop over the lines of the input. *)
Definition scan (lines : list str) (st : scan_state) : scan_state :=
  fold_left scan_line lines st.

(** The content partitioner: the dictionary [sections] as it stands when
    [format_resume] starts writing (after the loop and the last flush). *)
Definition partition_sections (content : str) : dict :=
  flush (scan (split_on nl content) scan_init).

(** The lines of the input as the loop sees them: split, then stripped. *)
Definition trimmed_lines (content : str) : list str :=
  map strip (split_on nl content).


(* ================================================================== *)
(** ** Exceptions *)
(* ================================================================== *)

(** A raised exception, an instance of a subclass of [Exception], with the
    text [str(e)] gives for it.  Interpreter-exit signals ([SystemExit],
    [KeyboardInterrupt]) are outside the model. *)
Inductive exn := Exn (msg : str).

(** [str(e)] *)
Definition exn_str (e : exn) : str := let 'Exn msg := e in msg.

(** How the evaluation of an expression ends. *)
Inductive outcome (A : Type) :=
| Returns (a : A)
| Raises (e : exn).
Arguments Returns {A} a.
Arguments Raises {A} e.

Definition obind (A B : Type) (m : outcome A) (f : A -> outcome B)
  : outcome B :=
  match m with
  | Returns a => f a
  | Raises e => Raises e
  end.

(** [try: m  except (Exception as) e: h e] *)
Definition otry (A : Type) (m : outcome A) (h : exn -> outcome A)
  : outcome A :=
  match m with
  | Returns a => Returns a
  | Raises e => h e
  end.

(* ================================================================== *)
(** ** The document library, at its boundary *)
(* ================================================================== *)

Module Docx.

(** [style=None] or [style='List Bullet'] *)
Inductive style := StyleDefault | StyleListBullet.

Record run := {
  run_text : str;
  run_bold : bool;
  run_size : option N                  (* [Pt n], when set *)
}.

Record paragraph := {
  p_runs : list run;
  p_style : style
}.

(** [Document.add_paragraph(text, style)] makes a paragraph that holds one
    run when [text] is not empty and none otherwise. *)
Definition new_paragraph (text : str) (st : style) : paragraph :=
  {| p_runs := if truthy text
               then [ {| run_text := text; run_bold := false;
                         run_size := None |} ]
               else [];
     p_style := st |}.

(** [p.add_run(text)] followed by the settings of [bold] and [font.size]. *)
Definition add_run (p : paragraph) (text : str) (bold : bool)
           (size : option N) : paragraph :=
  {| p_runs := p_runs p ++ [ {| run_text := text; run_bold := bold;
                                run_size := size |} ];
     p_style := p_style p |}.

(** [paragraph.text] *)
Definition text (p : paragraph) : str :=
  List.concat (map run_text (p_runs p)).

End Docx.

Import Docx.

(** The heading paragraph of a section: a bold run of 14 points. *)
Definition heading_paragraph (title : str) : paragraph :=
  add_run (new_paragraph [] StyleDefault) title true (Some 14%N).

(** The blank paragraph between sections. *)
Definition spacer_paragraph : paragraph := new_paragraph [] StyleDefault.

Definition plain_paragraph (t : str) : paragraph :=
  new_paragraph t StyleDefault.

Definition bullet_paragraph (t : str) : paragraph :=
  new_paragraph t StyleListBullet.

(** A heading is recognised by its bold run; no other paragraph the writer
    makes has one. *)
Definition is_heading (p : paragraph) : bool := existsb run_bold (p_runs p).

(** The titles of the headed sections of a document, in document order. *)
Definition heading_titles (doc : list paragraph) : list str :=
  map text (filter is_heading doc).

(* ================================================================== *)
(** ** The LLM client, at its boundary *)
(* ================================================================== *)

(** A constructed [ChatOpenAI] client holds its arguments. *)
Record client := {
  model_name : str;
  temperature : Q
}.

(** The [.content] of a reply: a string, a list of strings, or anything
    else. *)
Inductive formatted :=
| FStr (s : str)
| FList (items : list str)
| FOther.

(* ================================================================== *)
(** ** The state of a run and its monad *)
(* ================================================================== *)

Record world := {
  llm : client;                              (* the module global [llm] *)
  llm_calls : list (client * str);           (* every [invoke], oldest first *)
  document : list paragraph;                 (* [self.document] *)
  normal_font : option (str * N);            (* font of the style 'Normal' *)
  output_file : str;                         (* [self.output_file] *)
  self_llm : client;                         (* [self.llm] *)
  files : list (str * list paragraph)        (* documents saved, newest first *)
}.

(** A computation that reads and changes the state and may raise; what it
    changed before raising stays changed. *)
Definition M (A : Type) : Type := world -> outcome A * world.

Definition ret (A : Type) (a : A) : M A := fun w => (Returns a, w).

Definition bind (A B : Type) (m : M A) (f : A -> M B) : M B :=
  fun w =>
    match m w with
    | (Returns a, w') => f a w'
    | (Raises e, w') => (Raises e, w')
    end.

Declare Scope py_scope.
Delimit Scope py_scope with py.
Notation "x <- m ;; k" := (bind m (fun x => k))
  (at level 61, m at next level, right associativity) : py_scope.
Notation "m ;; k" := (bind m (fun _ => k))
  (at level 61, right associativity) : py_scope.
Local Open Scope py_scope.

(** [for x in l: f x] *)
Fixpoint for_each (A : Type) (f : A -> M unit) (l : list A) : M unit :=
  match l with
  | [] => ret tt
  | x :: l' => f x ;; for_each f l'
  end.

(** The state once the module is loaded with [llm] bound to a client:
    nothing asked of the LLM yet, no writer made, nothing saved. *)
Definition initial_world (c : client) : world :=
  {| llm := c; llm_calls := []; document := [];
     normal_font := None; output_file := []; self_llm := c;
     files := [] |}.

(** The state a computation leaves, and its outcome. *)
Definition exec (A : Type) (m : M A) (w : world) : world := snd (m w).
Definition eval (A : Type) (m : M A) (w : world) : outcome A := fst (m w).

(** The state with some paragraphs added at the end of the document. *)
Definition append_doc (ps : list paragraph) (w : world) : world :=
  {| llm := llm w; llm_calls := llm_calls w;
     document := document w ++ ps;
     normal_font := normal_font w; output_file := output_file w;
     self_llm := self_llm w; files := files w |}.

(** The state with one more call in the log of the LLM. *)
Definition record_call (call : client * str) (w : world) : world :=
  {| llm := llm w; llm_calls := llm_calls w ++ [call];
     document := document w;
     normal_font := normal_font w; output_file := output_file w;
     self_llm := self_llm w; files := files w |}.

(** [self.document.add_paragraph(...)]: one more paragraph at the end. *)
Definition append_paragraph (p : paragraph) : M unit :=
  fun w => (Returns tt, append_doc [p] w).

(* ================================================================== *)
(** ** The program *)
(* ================================================================== *)

(** [temperature=0.2] *)
Definition temperature_0_2 : Q := (2 # 10)%Q.

(** The marker [startswith] looks for in [write_section], as the source file
    has it: the three code points U+00E2, U+20AC, U+00A2. *)
Definition bullet_marker : str := [226%N; 8364%N; 162%N].

(** [self.section_prompt.format(section_name=..., content=...)]: the
    template of [_setup_prompts] with its two fields filled in. *)
Definition section_prompt_format (section_name content : str) : str :=
  join nl
    [ [];
      py "            Format the following " ++ section_name
        ++ py " section content for a resume, ensuring it is:";
      py "            1. Concise and impactful";
      py "            2. Uses action verbs";
      py "            3. Quantifies achievements where possible";
      py "            4. Is ATS-friendly";
      py "            5. Maintains professional tone";
      [];
      py "            Content:";
      py "            " ++ content;
      [];
      py "            Return only the formatted content without any additional commentary.";
      py "            " ].

(** The loop of [DocxReaderTool._run] over [doc.paragraphs]. *)
Definition full_text_of (paragraphs : list paragraph) : list str :=
  fold_left
    (fun full_text p =>
       if truthy (strip (text p)) then full_text ++ [strip (text p)]
       else full_text)
    paragraphs [].

Section Program.

(** The environment variables: [os.environ.get]. *)
Variable environ : str -> option str.

(** Whether constructing a [ChatOpenAI] client for a model name raises. *)
Variable construction_error : str -> option exn.

(** The reply of the LLM to a prompt, given the client used and the calls
    made before; it may raise. *)
Variable llm_invoke : client -> list (client * str) -> str -> outcome formatted.

(** [Document(path)]: the paragraphs of the file read, unless it raises. *)
Variable Document : str -> outcome (list paragraph).

(** [os.getenv(name, default)] *)
Definition getenv (name default : str) : str :=
  match environ name with
  | Some v => v
  | None => default
  end.

(** [ChatOpenAI(model_name=..., temperature=...)] *)
Definition ChatOpenAI (name : str) (temp : Q) : outcome client :=
  match construction_error name with
  | Some e => Raises e
  | None => Returns {| model_name := name; temperature := temp |}
  end.

Definition get_llm : outcome client :=
  let model_name := getenv (py "OPENAI_MODEL_NAME") (py "gpt-4") in
  otry (ChatOpenAI model_name temperature_0_2)
       (fun _ => ChatOpenAI (py "gpt-3.5-turbo") temperature_0_2).

(** [llm = get_llm()] when the module is loaded. *)
Definition load_module : outcome world :=
  obind get_llm (fun c => Returns (initial_world c)).

(** [DocxReaderTool._run] of a tool made for [file_path]. *)
Definition _run (file_path : str) : outcome str :=
  otry (obind (Document file_path)
              (fun paragraphs => Returns (join nl (full_text_of paragraphs))))
       (fun e => Returns (py "Error reading DOCX file: " ++ exn_str e)).

(** [ResumeWriter.__init__] with the default [output_file]: a new empty
    document, the font of 'Normal' set by [_setup_document]. *)
Definition ResumeWriter_init : M unit :=
  fun w =>
    (Returns tt,
     {| llm := llm w; llm_calls := llm_calls w;
        document := [];
        normal_font := Some (py "Calibri", 11%N);
        output_file := py "output.docx";
        self_llm := llm w; files := files w |}).

(** [self.llm.invoke(prompt).content] *)
Definition invoke (prompt : str) : M formatted :=
  fun w =>
    (llm_invoke (self_llm w) (llm_calls w) prompt,
     record_call (self_llm w, prompt) w).

Definition _format_section_content (section_name content : str)
  : M formatted :=
  if negb (truthy content) then ret (FStr content)
  else invoke (section_prompt_format section_name content).

(** The body of [for para in paragraphs] in [write_section]. *)
Definition write_para (para : str) : M unit :=
  if truthy (strip para) then
    if startswith (strip para) bullet_marker then
      append_paragraph
        (new_paragraph (strip (slice_from 1 (strip para))) StyleListBullet)
    else
      append_paragraph (new_paragraph (strip para) StyleDefault)
  else ret tt.

(** [write_section], for whatever [self._format_section_content] is bound
    to: the method is looked up on [self], so a test double can stand in
    for it. *)
Definition write_section_with (fmt : str -> str -> M formatted)
           (title content : str) : M unit :=
  formatted_content <- fmt title content ;;
  append_paragraph (heading_paragraph title) ;;
  match formatted_content with
  | FStr s => for_each write_para (split_on nl s)
  | FList items =>
      for_each (fun item => append_paragraph
                              (new_paragraph item StyleListBullet)) items
  | FOther => ret tt
  end ;;
  append_paragraph (new_paragraph [] StyleDefault).

Definition write_section : str -> str -> M unit :=
  write_section_with _format_section_content.

(** [ResumeWriter.save] *)
Definition save : M unit :=
  fun w =>
    (Returns tt,
     {| llm := llm w; llm_calls := llm_calls w;
        document := document w;
        normal_font := normal_font w; output_file := output_file w;
        self_llm := self_llm w;
        files := (output_file w, document w) :: files w |}).

(** [for section, content in sections.items(): if content: ...] *)
Definition write_sections (fmt : str -> str -> M formatted)
           (d : dict) : M unit :=
  for_each (fun item : str * str =>
              let (section, content) := item in
              if truthy content then write_section_with fmt section content
              else ret tt) d.

Definition format_resume_with (fmt : str -> str -> M formatted)
           (content : str) : M unit :=
  ResumeWriter_init ;;
  write_sections fmt (partition_sections content) ;;
  save.

Definition format_resume : str -> M unit :=
  format_resume_with _format_section_content.

End Program.

(* ================================================================== *)
(** ** Vocabulary of the statements *)
(* ================================================================== *)

(** A line that is none of the four section names. *)
Definition nameless (l : str) : Prop := ~ In l section_names.

(** [l2] is empty or starts with a section name: a body ends there. *)
Definition body_ends (l2 : list str) : Prop :=
  l2 = [] \/ exists h t, l2 = h :: t /\ In h section_names.

(** [a] is [b] with some elements left out, order kept. *)
Inductive subsequence (A : Type) : list A -> list A -> Prop :=
| subsequence_nil : subsequence [] []
| subsequence_skip : forall x a b, subsequence a b -> subsequence a (x :: b)
| subsequence_keep : forall x a b,
    subsequence a b -> subsequence (x :: a) (x :: b).

(** What one line of a formatted text block turns into, as the source
    stands: nothing for a blank line; for a line whose trimmed form starts
    with the marker, one bullet-styled paragraph whose text is the trimmed
    line without its first code point, trimmed again; for any other line,
    one plain paragraph with the trimmed line as its text. *)
Definition line_rendered (line : str) (ps : list paragraph) : Prop :=
  (strip line = [] /\ ps = [])
  \/ (strip line <> [] /\ startswith (strip line) bullet_marker = true
      /\ ps = [bullet_paragraph (strip (slice_from 1 (strip line)))])
  \/ (strip line <> [] /\ startswith (strip line) bullet_marker = false
      /\ ps = [plain_paragraph (strip line)]).

(** A formatter that leaves the document alone. *)
Definition keeps_document (fmt : str -> str -> M formatted) : Prop :=
  forall title content w, document (exec (fmt title content) w) = document w.

(** Test doubles: a formatter that returns its content, a model that is
    never available under the name 'gpt-4', a client that cannot be
    constructed for any model, an LLM that answers with three blanks, one
    that answers with two bullet lines, and one that fails. *)
Definition identity_formatter : str -> str -> M formatted :=
  fun _ content => ret (FStr content).

Definition no_environ : str -> option str := fun _ => None.

Definition gpt4_unavailable : str -> option exn :=
  fun name => if str_eqb name (py "gpt-4")
              then Some (Exn (py "model not found")) else None.

Definition no_api_key : str -> option exn :=
  fun _ => Some (Exn (py "api_key must be set")).

Definition llm_blank : client -> list (client * str) -> str -> outcome formatted :=
  fun _ _ _ => Returns (FStr (py "   ")).

Definition llm_bullets : client -> list (client * str) -> str -> outcome formatted :=
  fun _ _ _ =>
    Returns (FStr (bullet_marker ++ py " Led a team" ++ nl :: nl
                   :: py "  Shipped v2  ")).

Definition llm_down : client -> list (client * str) -> str -> outcome formatted :=
  fun _ _ _ => Raises (Exn (py "rate limit")).

Definition docx_missing : str -> outcome (list paragraph) :=
  fun _ => Raises (Exn (py "Package not found")).

Definition gpt4_client : client :=
  {| model_name := py "gpt-4"; temperature := temperature_0_2 |}.

Definition world0 : world := initial_world gpt4_client.

(** The input of the end-to-end scenario. *)
Definition scenario_text : str :=
  py "Professional Profile" ++ nl :: py "Senior Engineer, 10 years"
    ++ nl :: py "Skills" ++ nl :: py "Python, Go".

(** An input in which 'Skills' occurs twice, each time with a body. *)
Definition repeated_text : str :=
  py "Skills" ++ nl :: py "Python" ++ nl :: py "Education" ++ nl
    :: py "BSc" ++ nl :: py "Skills" ++ nl :: py "Go" ++ nl :: py "Go".

(** The dictionary keeps its four keys and the active section is one of
    them. *)
Definition scan_wf (st : scan_state) : Prop :=
  dict_keys (sections st) = section_names
  /\ forall c, current_section st = Some c -> In c section_names.

(** A stored value is empty, or it is the joined body of an occurrence of
    its heading in the lines read so far. *)
Definition block_of (ends : list str -> Prop) (done : list str)
           (kv : str * str) : Prop :=
  snd kv = []
  \/ exists l1 seg l2,
      done = l1 ++ fst kv :: seg ++ l2 /\ Forall nameless seg /\ ends l2
      /\ snd kv = join nl (filter truthy seg).

Definition starts_with_name (l2 : list str) : Prop :=
  exists h t, l2 = h :: t /\ In h section_names.

(** The lines gathered for the active section are the body read so far. *)
Definition open_block (done : list str) (st : scan_state) : Prop :=
  match current_section st with
  | None => True
  | Some c =>
      exists l1 seg,
        done = l1 ++ c :: seg /\ Forall nameless seg
        /\ current_content st = filter truthy seg
  end.

Definition scan_inv (done : list str) (st : scan_state) : Prop :=
  scan_wf st /\ open_block done st
  /\ Forall (block_of starts_with_name done) (sections st).

(** The paragraphs one line of a text block adds. *)
Definition rendered_line (para : str) : list paragraph :=
  if truthy (strip para) then
    if startswith (strip para) bullet_marker
    then [new_paragraph (strip (slice_from 1 (strip para))) StyleListBullet]
    else [new_paragraph (strip para) StyleDefault]
  else [].

(** The paragraphs a formatted result adds between heading and spacer. *)
Definition rendered_body (f : formatted) : list paragraph :=
  match f with
  | FStr s => flat_map rendered_line (split_on nl s)
  | FList items => map (fun item => new_paragraph item StyleListBullet) items
  | FOther => []
  end.

(** The entries of a dictionary whose content is not empty: those the loop
    of [format_resume] writes. *)
Definition sections_with_content (d : dict) : dict :=
  filter (fun kv => truthy (snd kv)) d.

(** The state with some more calls in the log of the LLM. *)
Definition record_calls (calls : list (client * str)) (w : world) : world :=
  {| llm := llm w; llm_calls := llm_calls w ++ calls;
     document := document w;
     normal_font := normal_font w; output_file := output_file w;
     self_llm := self_llm w; files := files w |}.

(** The call the formatter makes for an entry, with a given client. *)
Definition section_call (c : client) (kv : str * str) : client * str :=
  (c, section_prompt_format (fst kv) (snd kv)).

(** A string that starts with a code point that is not white space. *)
Definition starts_solid (s : str) : Prop :=
  exists c t, s = c :: t /\ isspace c = false.

(** A string that is not empty and has no white space at either end. *)
Definition solid (s : str) : Prop := starts_solid s /\ starts_solid (rev s).

(** A headed section of the document: heading, body, spacer. *)
Definition section_block (kb : str * list paragraph) : list paragraph :=
  heading_paragraph (fst kb) :: snd kb ++ [spacer_paragraph].

(** A run that overrides nothing of the style 'Normal'. *)
Definition plain_run (r : run) : Prop :=
  run_bold r = false /\ run_size r = None.

(** A paragraph of a body: no heading, not the spacer, runs that override
    nothing. *)
Definition body_paragraph (p : paragraph) : Prop :=
  is_heading p = false /\ p <> spacer_paragraph
  /\ Forall plain_run (p_runs p).

Ltac prove_nameless :=
  repeat constructor;
  let H := fresh in
  intros H; vm_compute in H;
  repeat (destruct H as [H|H]; [discriminate H|]); exact H.

(* ================================================================== *)
(** ** Strings and dictionaries *)
(* ================================================================== *)

Lemma str_eqb_eq (a b : str) : str_eqb a b = true <-> a = b.
Proof.
  revert b; induction a as [|x a IH]; intros [|y b]; simpl;
    try (split; congruence).
  rewrite andb_true_iff, N.eqb_eq, IH. split.
  - intros [-> ->]; reflexivity.
  - intros E; inversion E; auto.
Qed.

Lemma str_eqb_refl (a : str) : str_eqb a a = true.
Proof. apply str_eqb_eq; reflexivity. Qed.

Lemma str_eqb_neq (a b : str) : a <> b -> str_eqb a b = false.
Proof.
  intros H. destruct (str_eqb a b) eqn:E; [|reflexivity].
  apply str_eqb_eq in E. contradiction.
Qed.

Lemma truthy_nonempty (s : str) : truthy s = true <-> s <> [].
Proof. destruct s; simpl; split; congruence. Qed.

Lemma dict_mem_keys (k : str) (d : dict) :
  dict_mem k d = true <-> In k (dict_keys d).
Proof.
  induction d as [|[k' v'] d IH]; simpl.
  - split; [discriminate | tauto].
  - rewrite orb_true_iff, str_eqb_eq, IH. tauto.
Qed.

Lemma dict_mem_not_keys (k : str) (d : dict) :
  ~ In k (dict_keys d) -> dict_mem k d = false.
Proof.
  intros H. destruct (dict_mem k d) eqn:E; [|reflexivity].
  apply dict_mem_keys in E. contradiction.
Qed.

Lemma dict_keys_set (k v : str) (d : dict) :
  In k (dict_keys d) -> dict_keys (dict_set k v d) = dict_keys d.
Proof.
  induction d as [|[k' v'] d IH]; simpl; [tauto|].
  intros H. destruct (str_eqb k' k) eqn:E; simpl; [reflexivity|].
  f_equal. apply IH. destruct H as [H|H]; [|assumption].
  subst. rewrite str_eqb_refl in E. discriminate.
Qed.

Lemma dict_set_Forall (P : str * str -> Prop) (k v : str) (d : dict) :
  Forall P d -> P (k, v) -> Forall P (dict_set k v d).
Proof.
  intros Hd Hk. induction Hd as [|[k' v'] d Hx Hd IH]; simpl.
  - constructor; [assumption | constructor].
  - destruct (str_eqb k' k) eqn:E.
    + apply str_eqb_eq in E. subst. constructor; assumption.
    + constructor; assumption.
Qed.

Lemma dict_get_set_same (k v : str) (d : dict) :
  dict_get k (dict_set k v d) = Some v.
Proof.
  induction d as [|[k' v'] d IH]; simpl.
  - rewrite str_eqb_refl. reflexivity.
  - destruct (str_eqb k' k) eqn:E; simpl; rewrite E; auto.
Qed.

Lemma dict_get_set_other (k k' v : str) (d : dict) :
  k <> k' -> dict_get k (dict_set k' v d) = dict_get k d.
Proof.
  intros Hne. induction d as [|[k0 v0] d IH]; simpl.
  - rewrite str_eqb_neq by congruence. reflexivity.
  - destruct (str_eqb k0 k') eqn:E; simpl.
    + apply str_eqb_eq in E. subst.
      rewrite str_eqb_neq by congruence. reflexivity.
    + rewrite IH. reflexivity.
Qed.

Lemma dict_get_In (k v : str) (d : dict) :
  dict_get k d = Some v -> In (k, v) d.
Proof.
  induction d as [|[k' v'] d IH]; simpl; [discriminate|].
  destruct (str_eqb k' k) eqn:E.
  - apply str_eqb_eq in E. intros [= ->]. subst. auto.
  - auto.
Qed.

Lemma lstrip_blank (s : str) : lstrip s = [] <-> forallb isspace s = true.
Proof.
  induction s as [|c s IH]; simpl; [tauto|].
  destruct (isspace c); simpl; [exact IH|]. split; discriminate.
Qed.

Lemma lstrip_head (s t : str) (c : char) :
  lstrip s = c :: t -> isspace c = false.
Proof.
  induction s as [|x s IH]; simpl; [discriminate|].
  destruct (isspace x) eqn:E; [exact IH|]. intros [= -> _]. exact E.
Qed.

Lemma forallb_rev (A : Type) (f : A -> bool) (l : list A) :
  forallb f (rev l) = forallb f l.
Proof.
  induction l as [|x l IH]; simpl; [reflexivity|].
  rewrite forallb_app, IH. simpl. rewrite andb_true_r. apply andb_comm.
Qed.

Lemma rev_nil_inv (A : Type) (l : list A) : rev l = [] -> l = [].
Proof.
  intros H. apply (f_equal (@rev A)) in H. rewrite rev_involutive in H.
  exact H.
Qed.

(** A string is blank after trimming exactly when all of it is white
    space. *)
Lemma strip_blank (s : str) : strip s = [] <-> forallb isspace s = true.
Proof.
  unfold strip, rstrip. split.
  - intros H. apply rev_nil_inv in H. apply lstrip_blank in H.
    rewrite forallb_rev in H. apply lstrip_blank.
    destruct (lstrip s) as [|c t] eqn:E; [reflexivity|].
    apply lstrip_head in E. simpl in H. rewrite E in H. discriminate.
  - intros H. apply lstrip_blank in H. rewrite H. reflexivity.
Qed.

Lemma lstrip_In (c : char) (s : str) : In c (lstrip s) -> In c s.
Proof.
  induction s as [|x s IH]; simpl; [tauto|].
  destruct (isspace x); simpl; tauto.
Qed.

Lemma strip_In (c : char) (s : str) : In c (strip s) -> In c s.
Proof.
  unfold strip, rstrip. intros H.
  apply in_rev, lstrip_In, in_rev, lstrip_In in H. exact H.
Qed.

Lemma split_on_not_nil (sep : char) (s : str) : split_on sep s <> [].
Proof.
  destruct s as [|c s]; simpl; [discriminate|].
  destruct (N.eqb c sep); [discriminate|].
  destruct (split_on sep s); discriminate.
Qed.

Lemma split_on_blank (s : str) :
  forallb isspace s = true ->
  Forall (fun l => strip l = []) (split_on nl s).
Proof.
  intros H.
  assert (G : Forall (fun l => forallb isspace l = true) (split_on nl s)).
  { induction s as [|c s IH]; simpl.
    - repeat constructor.
    - simpl in H. apply andb_true_iff in H as [Hc Hs].
      specialize (IH Hs). destruct (N.eqb c nl).
      + constructor; [reflexivity | exact IH].
      + destruct (split_on nl s) as [|h t].
        * repeat constructor. simpl. rewrite Hc. reflexivity.
        * inversion IH; subst. constructor; [|assumption].
          simpl. rewrite Hc. assumption. }
  eapply Forall_impl; [|exact G]. intros l Hl. apply strip_blank. exact Hl.
Qed.

Lemma split_on_no_sep (sep : char) (s : str) :
  Forall (fun l => ~ In sep l) (split_on sep s).
Proof.
  induction s as [|c s IH]; simpl.
  - constructor; [tauto | constructor].
  - destruct (N.eqb c sep) eqn:E.
    + constructor; [tauto | exact IH].
    + apply N.eqb_neq in E. destruct (split_on sep s) as [|h t].
      * constructor; [|constructor]. simpl. intros [H|[]]. congruence.
      * inversion IH; subst. constructor; [|assumption].
        simpl. intros [H|H]; [congruence | contradiction].
Qed.

Lemma split_on_app (sep : char) (a b : str) :
  split_on sep (a ++ sep :: b) = split_on sep a ++ split_on sep b.
Proof.
  induction a as [|c a IH]; simpl.
  - rewrite N.eqb_refl. reflexivity.
  - destruct (N.eqb c sep); [rewrite IH; reflexivity|].
    rewrite IH. pose proof (split_on_not_nil sep a) as Hn.
    destruct (split_on sep a); [contradiction | reflexivity].
Qed.

Lemma split_on_single (sep : char) (p : str) :
  ~ In sep p -> split_on sep p = [p].
Proof.
  induction p as [|c p IH]; simpl; [reflexivity|].
  intros H. destruct (N.eqb c sep) eqn:E.
  - apply N.eqb_eq in E. tauto.
  - rewrite IH by tauto. reflexivity.
Qed.

(** Splitting undoes joining, for parts that hold no separator. *)
Lemma split_on_join (sep : char) (parts : list str) :
  parts <> [] -> Forall (fun l => ~ In sep l) parts ->
  split_on sep (join sep parts) = parts.
Proof.
  induction parts as [|p rest IH]; [congruence|].
  intros _ H. inversion H as [|? ? Hp Hrest]; subst.
  destruct rest as [|q rest'].
  - simpl. apply split_on_single. exact Hp.
  - change (join sep (p :: q :: rest')) with (p ++ sep :: join sep (q :: rest')).
    rewrite split_on_app, split_on_single by exact Hp.
    rewrite IH by (congruence || assumption). reflexivity.
Qed.

Lemma trimmed_lines_no_nl (content : str) :
  Forall (fun l => ~ In nl l) (trimmed_lines content).
Proof.
  unfold trimmed_lines. apply Forall_map.
  eapply Forall_impl; [|apply split_on_no_sep].
  intros l H Hin. apply H. apply strip_In. exact Hin.
Qed.

Lemma startswith_app (p s : str) : startswith (p ++ s) p = true.
Proof.
  induction p as [|c p IH]; simpl; [destruct s; reflexivity|].
  rewrite N.eqb_refl. exact IH.
Qed.

(* ================================================================== *)
(** ** The scanning loop *)
(* ================================================================== *)

Lemma scan_trimmed (lines : list str) (st : scan_state) :
  scan lines st = fold_left scan_step (map strip lines) st.
Proof.
  unfold scan. revert st. induction lines as [|l lines IH]; intros st; simpl.
  - reflexivity.
  - apply IH.
Qed.

Lemma section_names_truthy (c : str) : In c section_names -> truthy c = true.
Proof.
  unfold section_names. simpl. intros H.
  repeat (destruct H as [<-|H]; [reflexivity|]). contradiction.
Qed.

Lemma scan_init_wf : scan_wf scan_init.
Proof. split; [reflexivity | discriminate]. Qed.

Lemma flush_keys (st : scan_state) :
  scan_wf st -> dict_keys (flush st) = section_names.
Proof.
  intros [Hk Hc]. unfold flush. destruct (current_section st) as [c|]; auto.
  destruct (truthy c && truthy_list (current_content st)); auto.
  rewrite dict_keys_set; auto. rewrite Hk. auto.
Qed.

Lemma scan_step_name (st : scan_state) (l : str) :
  scan_wf st -> In l section_names ->
  scan_step st l = {| sections := flush st;
                      current_section := Some l;
                      current_content := [] |}.
Proof.
  intros [Hk _] Hl. unfold scan_step.
  assert (E : dict_mem l (sections st) = true)
    by (apply dict_mem_keys; rewrite Hk; exact Hl).
  rewrite E. reflexivity.
Qed.

Lemma scan_step_nameless (st : scan_state) (l : str) :
  scan_wf st -> nameless l ->
  scan_step st l =
    match current_section st with
    | Some c =>
        if truthy l
        then {| sections := sections st;
                current_section := Some c;
                current_content := current_content st ++ [l] |}
        else st
    | None => st
    end.
Proof.
  intros [Hk Hc] Hl. unfold scan_step.
  rewrite dict_mem_not_keys by (rewrite Hk; exact Hl).
  destruct (current_section st) as [c|] eqn:E.
  - rewrite (section_names_truthy (Hc c eq_refl)), andb_true_r. reflexivity.
  - rewrite andb_false_r. reflexivity.
Qed.

Lemma scan_step_wf (st : scan_state) (l : str) :
  scan_wf st -> scan_wf (scan_step st l).
Proof.
  intros Hwf. destruct (in_dec (list_eq_dec N.eq_dec) l section_names)
    as [Hin|Hout].
  - rewrite scan_step_name by assumption. split; simpl.
    + apply flush_keys. exact Hwf.
    + intros c [= <-]. exact Hin.
  - rewrite scan_step_nameless by assumption. destruct Hwf as [Hk Hc].
    destruct (current_section st) as [c|] eqn:E.
    + destruct (truthy l); split; simpl; try rewrite E; assumption.
    + split; [exact Hk | rewrite E; discriminate].
Qed.

Lemma scan_steps_wf (ls : list str) (st : scan_state) :
  scan_wf st -> scan_wf (fold_left scan_step ls st).
Proof.
  revert st. induction ls as [|l ls IH]; intros st H; simpl; auto.
  apply IH, scan_step_wf, H.
Qed.

(** Before the first heading nothing is kept. *)
Lemma scan_nameless_idle (ls : list str) (st : scan_state) :
  scan_wf st -> current_section st = None -> Forall nameless ls ->
  fold_left scan_step ls st = st.
Proof.
  intros Hwf Hc H. induction H as [|l ls Hl _ IH]; simpl; [reflexivity|].
  rewrite scan_step_nameless, Hc by assumption. exact IH.
Qed.

(** After a heading, the lines up to the next heading are gathered, the
    empty ones left out. *)
Lemma scan_nameless_body (seg : list str) (st : scan_state) (c : str) :
  scan_wf st -> current_section st = Some c -> Forall nameless seg ->
  fold_left scan_step seg st =
    {| sections := sections st;
       current_section := Some c;
       current_content := current_content st ++ filter truthy seg |}.
Proof.
  intros Hwf Hc H. revert st Hwf Hc.
  induction H as [|l seg Hl _ IH]; intros st Hwf Hc; simpl.
  - rewrite app_nil_r. destruct st; simpl in *; subst; reflexivity.
  - pose proof (scan_step_wf l Hwf) as Hwf'.
    rewrite scan_step_nameless, Hc in * by assumption.
    destruct (truthy l).
    + rewrite (IH _ Hwf' eq_refl). simpl. rewrite <- app_assoc. reflexivity.
    + apply IH; assumption.
Qed.

Lemma block_of_grows (done : list str) (l : str) (kv : str * str) :
  block_of starts_with_name done kv ->
  block_of starts_with_name (done ++ [l]) kv.
Proof.
  intros [H|(l1 & seg & l2 & -> & Hs & (h & t & -> & Hh) & Hv)];
    [left; exact H | right].
  exists l1, seg, ((h :: t) ++ [l]). repeat split; auto.
  - rewrite <- !app_assoc. simpl. rewrite <- app_assoc. reflexivity.
  - exists h, (t ++ [l]). split; [reflexivity | exact Hh].
Qed.

Lemma flush_blocks (ends : list str -> Prop) (done done' : list str)
      (st : scan_state) :
  Forall (block_of ends done') (sections st) ->
  (forall c l1 seg, current_section st = Some c -> done = l1 ++ c :: seg ->
     Forall nameless seg -> current_content st = filter truthy seg ->
     block_of ends done' (c, join nl (filter truthy seg))) ->
  open_block done st ->
  Forall (block_of ends done') (flush st).
Proof.
  intros Hall Hnew Hopen. unfold flush, open_block in *.
  destruct (current_section st) as [c|]; [|exact Hall].
  destruct (truthy c && truthy_list (current_content st)); [|exact Hall].
  destruct Hopen as (l1 & seg & Hd & Hs & Hc).
  apply dict_set_Forall; [exact Hall|]. rewrite Hc.
  eapply Hnew; eauto.
Qed.

Lemma scan_step_inv (done : list str) (st : scan_state) (l : str) :
  scan_inv done st -> scan_inv (done ++ [l]) (scan_step st l).
Proof.
  intros (Hwf & Hopen & Hall). split; [apply scan_step_wf; exact Hwf|].
  assert (Hall' : Forall (block_of starts_with_name (done ++ [l]))
                         (sections st)).
  { eapply Forall_impl; [|exact Hall]. intros kv. apply block_of_grows. }
  destruct (in_dec (list_eq_dec N.eq_dec) l section_names) as [Hin|Hout].
  - rewrite scan_step_name by assumption. split; simpl.
    + exists done, []. repeat split; constructor.
    + eapply flush_blocks; [exact Hall' | | exact Hopen].
      intros c l1 seg _ -> Hs _. right. exists l1, seg, [l]. simpl.
      repeat split; auto.
      * rewrite <- app_assoc. reflexivity.
      * exists l, []. split; [reflexivity | exact Hin].
  - rewrite scan_step_nameless by assumption. unfold open_block in *.
    destruct (current_section st) as [c|] eqn:E.
    + destruct Hopen as (l1 & seg & -> & Hs & Hc).
      assert (Hs' : Forall nameless (seg ++ [l]))
        by (apply Forall_app; split; [exact Hs | repeat constructor; exact Hout]).
      destruct (truthy l) eqn:Hl; split; simpl; try rewrite E; auto;
        exists l1, (seg ++ [l]); rewrite <- app_assoc; simpl;
        rewrite filter_app; simpl; rewrite Hl, Hc;
        repeat split; auto using app_nil_r.
    + split; [rewrite E; exact I | exact Hall'].
Qed.

Lemma scan_steps_inv (rest done : list str) (st : scan_state) :
  scan_inv done st -> scan_inv (done ++ rest) (fold_left scan_step rest st).
Proof.
  revert done st. induction rest as [|l rest IH]; intros done st H; simpl.
  - rewrite app_nil_r. exact H.
  - replace (done ++ l :: rest) with ((done ++ [l]) ++ rest)
      by (rewrite <- app_assoc; reflexivity).
    apply IH, scan_step_inv, H.
Qed.

Lemma scan_init_inv : scan_inv [] scan_init.
Proof.
  split; [exact scan_init_wf|]. split; [exact I|].
  unfold scan_init, sections_init. simpl.
  repeat constructor; left; reflexivity.
Qed.

(** Every stored value of the partitioner is empty or the joined body of
    one occurrence of its heading. *)
Lemma partition_blocks (content : str) :
  Forall (block_of body_ends (trimmed_lines content))
         (partition_sections content).
Proof.
  unfold partition_sections. rewrite scan_trimmed.
  fold (trimmed_lines content).
  destruct (scan_steps_inv (trimmed_lines content) scan_init_inv)
    as (Hwf & Hopen & Hall). simpl in *.
  eapply flush_blocks; [| | exact Hopen].
  - eapply Forall_impl; [|exact Hall].
    intros kv [H|(l1 & seg & l2 & Hd & Hs & He & Hv)]; [left; exact H|].
    right. exists l1, seg, l2. repeat split; auto. right. exact He.
  - intros c l1 seg _ -> Hs _. right. exists l1, seg, [].
    rewrite app_nil_r. repeat split; auto. left. reflexivity.
Qed.

Lemma partition_keys (content : str) :
  dict_keys (partition_sections content) = section_names.
Proof.
  unfold partition_sections. rewrite scan_trimmed.
  apply flush_keys, scan_steps_wf, scan_init_wf.
Qed.

Lemma flush_get_other (k : str) (st : scan_state) :
  (forall c, current_section st = Some c -> c <> k) ->
  dict_get k (flush st) = dict_get k (sections st).
Proof.
  intros H. unfold flush. destruct (current_section st) as [c|]; auto.
  destruct (truthy c && truthy_list (current_content st)); auto.
  apply dict_get_set_other. intros ->. exact (H c eq_refl eq_refl).
Qed.

(** Lines that never name [k] leave what is stored for [k] alone, once
    another section is active. *)
Lemma scan_keeps_other (k : str) (t : list str) (st : scan_state) :
  scan_wf st -> (forall c, current_section st = Some c -> c <> k) ->
  ~ In k t ->
  dict_get k (flush (fold_left scan_step t st)) = dict_get k (sections st).
Proof.
  revert st. induction t as [|a t IH]; intros st Hwf Hc Hk; simpl.
  - apply flush_get_other, Hc.
  - assert (Ha : a <> k) by (intros ->; apply Hk; left; reflexivity).
    assert (Ht : ~ In k t) by (intros H; apply Hk; right; exact H).
    rewrite IH; [| apply scan_step_wf; exact Hwf | | exact Ht].
    + destruct (in_dec (list_eq_dec N.eq_dec) a section_names) as [Hin|Hout].
      * rewrite scan_step_name by assumption. simpl.
        apply flush_get_other, Hc.
      * rewrite scan_step_nameless by assumption.
        destruct (current_section st); [destruct (truthy a)|]; reflexivity.
    + destruct (in_dec (list_eq_dec N.eq_dec) a section_names) as [Hin|Hout].
      * rewrite scan_step_name by assumption. simpl.
        intros c [= <-]. exact Ha.
      * rewrite scan_step_nameless by assumption.
        destruct (current_section st) as [c0|] eqn:E;
          [destruct (truthy a)|]; simpl; try rewrite E; exact Hc.
Qed.

(* ================================================================== *)
(** ** The content partitioner: claims C6, C7, C10 *)
(* ================================================================== *)

(** C6: when no line of the input, once trimmed, is one of the four section
    names, the partitioner leaves all four sections empty; and lines that
    come before the first heading of an input contribute nothing: the
    partition is that of the input without them. *)
Theorem partition_without_headings (pre : str) :
  Forall nameless (trimmed_lines pre) ->
  partition_sections pre = map (fun k => (k, [])) section_names
  /\ forall rest,
      partition_sections (pre ++ nl :: rest) = partition_sections rest.
Proof.
  intros H. unfold partition_sections. split.
  - rewrite scan_trimmed. fold (trimmed_lines pre).
    rewrite (scan_nameless_idle scan_init_wf eq_refl H).
    reflexivity.
  - intros rest. rewrite !scan_trimmed, split_on_app, map_app, fold_left_app.
    fold (trimmed_lines pre).
    rewrite (scan_nameless_idle scan_init_wf eq_refl H).
    reflexivity.
Qed.

Lemma partition_without_headings_witness :
  partition_sections (py "Jane Doe" ++ nl :: py " jane@example.com ")
  = map (fun k => (k, [])) section_names
  /\ forall rest,
      partition_sections
        ((py "Jane Doe" ++ nl :: py " jane@example.com ") ++ nl :: rest)
      = partition_sections rest.
Proof.
  apply (partition_without_headings
           (py "Jane Doe" ++ nl :: py " jane@example.com ")).
  vm_compute. prove_nameless.
Defined.

(** C7: the content stored for a section is made of the lines that follow
    one occurrence of its heading, up to the next heading or the end of the
    input: the non-empty trimmed lines of that stretch, joined by newlines
    in the order of the input, none moved and none dropped as a duplicate;
    split again, the content gives back exactly those lines. *)
Theorem partition_keeps_line_order (content k v : str) :
  In (k, v) (partition_sections content) -> v <> [] ->
  exists l1 seg l2,
    trimmed_lines content = l1 ++ k :: seg ++ l2
    /\ Forall nameless seg /\ body_ends l2
    /\ v = join nl (filter truthy seg)
    /\ split_on nl v = filter truthy seg.
Proof.
  intros Hin Hv.
  pose proof (partition_blocks content) as Hall.
  rewrite Forall_forall in Hall. specialize (Hall _ Hin).
  destruct Hall as [H|(l1 & seg & l2 & Hd & Hs & He & Hj)];
    simpl in *; [contradiction|].
  exists l1, seg, l2. repeat split; auto.
  rewrite Hj. apply split_on_join.
  - intros E. rewrite E in Hj. simpl in Hj. contradiction.
  - pose proof (trimmed_lines_no_nl content) as Hn.
    rewrite Hd in Hn. rewrite Forall_forall in *.
    intros l Hl. apply filter_In in Hl as [Hl _]. apply Hn.
    apply in_or_app. right. right. apply in_or_app. left. exact Hl.
Qed.

Lemma partition_keeps_line_order_witness :
  exists l1 seg l2,
    trimmed_lines repeated_text = l1 ++ py "Skills" :: seg ++ l2
    /\ Forall nameless seg /\ body_ends l2
    /\ py "Go" ++ nl :: py "Go" = join nl (filter truthy seg)
    /\ split_on nl (py "Go" ++ nl :: py "Go") = filter truthy seg.
Proof.
  apply (partition_keeps_line_order repeated_text).
  - vm_compute. do 3 right. left. reflexivity.
  - discriminate.
Defined.

(** C10: when a heading occurs for the last time with a non-empty body
    after it, the content stored for that section is that body alone:
    whatever an earlier occurrence of the same heading had stored is
    overwritten, not extended. *)
Theorem partition_last_occurrence (content k : str) (l1 seg l2 : list str) :
  trimmed_lines content = l1 ++ k :: seg ++ l2 ->
  In k section_names ->
  Forall nameless seg -> filter truthy seg <> [] ->
  body_ends l2 -> ~ In k l2 ->
  dict_get k (partition_sections content)
  = Some (join nl (filter truthy seg)).
Proof.
  intros Hd Hk Hs Hne He Hlast.
  unfold partition_sections. rewrite scan_trimmed.
  fold (trimmed_lines content). rewrite Hd.
  rewrite fold_left_app. simpl. rewrite fold_left_app.
  set (st1 := fold_left scan_step l1 scan_init).
  assert (Hwf1 : scan_wf st1) by apply scan_steps_wf, scan_init_wf.
  pose proof (scan_step_wf k Hwf1) as Hwf2.
  rewrite scan_step_name in * by assumption.
  rewrite (scan_nameless_body (c := k) Hwf2 eq_refl Hs). simpl.
  set (st3 := {| sections := flush st1; current_section := Some k;
                 current_content := filter truthy seg |}).
  assert (Hwf3 : scan_wf st3).
  { split; simpl; [apply flush_keys; exact Hwf1 | intros c [= <-]; exact Hk]. }
  assert (Hf3 : flush st3
                = dict_set k (join nl (filter truthy seg)) (flush st1)).
  { unfold flush at 1. simpl. rewrite (section_names_truthy Hk).
    destruct (filter truthy seg); [contradiction | reflexivity]. }
  destruct He as [->|(h & t & -> & Hh)].
  - simpl. rewrite Hf3. apply dict_get_set_same.
  - simpl. rewrite scan_step_name by assumption.
    rewrite scan_keeps_other.
    + simpl. rewrite Hf3. apply dict_get_set_same.
    + split; simpl; [apply flush_keys; exact Hwf3 | intros c [= <-]; exact Hh].
    + simpl. intros c [= <-] ->. apply Hlast. left. reflexivity.
    + intros H. apply Hlast. right. exact H.
Qed.

Lemma partition_last_occurrence_witness :
  dict_get (py "Skills") (partition_sections repeated_text)
  = Some (join nl (filter truthy [py "Go"; py "Go"])).
Proof.
  apply (partition_last_occurrence repeated_text
           [py "Skills"; py "Python"; py "Education"; py "BSc"]
           (seg := [py "Go"; py "Go"]) (l2 := [])).
  - vm_compute. reflexivity.
  - vm_compute. do 3 right. left. reflexivity.
  - prove_nameless.
  - vm_compute. discriminate.
  - left. reflexivity.
  - simpl. tauto.
Defined.

(* ================================================================== *)
(** ** The document writer *)
(* ================================================================== *)

Lemma append_doc_nil (w : world) : append_doc [] w = w.
Proof. destruct w. unfold append_doc. simpl. rewrite app_nil_r. reflexivity. Qed.

Lemma append_doc_app (a b : list paragraph) (w : world) :
  append_doc b (append_doc a w) = append_doc (a ++ b) w.
Proof. unfold append_doc. simpl. rewrite app_assoc. reflexivity. Qed.

Lemma write_para_appends (para : str) (w : world) :
  write_para para w = (Returns tt, append_doc (rendered_line para) w).
Proof.
  unfold write_para, rendered_line. destruct (truthy (strip para)).
  - destruct (startswith (strip para) bullet_marker); reflexivity.
  - rewrite append_doc_nil. reflexivity.
Qed.

Lemma for_each_appends (A : Type) (f : A -> M unit)
      (g : A -> list paragraph) (l : list A) :
  (forall x w, f x w = (Returns tt, append_doc (g x) w)) ->
  forall w, for_each f l w = (Returns tt, append_doc (flat_map g l) w).
Proof.
  intros Hf. induction l as [|x l IH]; intros w; simpl.
  - rewrite append_doc_nil. reflexivity.
  - unfold bind. rewrite Hf, IH, append_doc_app. reflexivity.
Qed.

Lemma flat_map_singleton (A B : Type) (g : A -> B) (l : list A) :
  flat_map (fun x => [g x]) l = map g l.
Proof. induction l as [|x l IH]; simpl; congruence. Qed.

Lemma write_body_appends (f : formatted) (w : world) :
  match f with
  | FStr s => for_each write_para (split_on nl s)
  | FList items =>
      for_each (fun item => append_paragraph
                              (new_paragraph item StyleListBullet)) items
  | FOther => ret tt
  end w = (Returns tt, append_doc (rendered_body f) w).
Proof.
  destruct f as [s|items|]; simpl.
  - apply for_each_appends. apply write_para_appends.
  - rewrite <- flat_map_singleton. apply for_each_appends. reflexivity.
  - unfold ret. rewrite append_doc_nil. reflexivity.
Qed.

(** A section whose formatter returns adds its heading, its body and the
    spacer, in that order. *)
Lemma write_section_with_returns (fmt : str -> str -> M formatted)
      (title content : str) (w w1 : world) (f : formatted) :
  fmt title content w = (Returns f, w1) ->
  write_section_with fmt title content w
  = (Returns tt,
     append_doc (heading_paragraph title :: rendered_body f
                   ++ [spacer_paragraph]) w1).
Proof.
  intros H. unfold write_section_with, bind. rewrite H.
  unfold append_paragraph. rewrite write_body_appends, !append_doc_app.
  reflexivity.
Qed.

(** A section whose formatter raises adds nothing and raises the same. *)
Lemma write_section_with_raises (fmt : str -> str -> M formatted)
      (title content : str) (w w1 : world) (e : exn) :
  fmt title content w = (Raises e, w1) ->
  write_section_with fmt title content w = (Raises e, w1).
Proof. intros H. unfold write_section_with, bind. rewrite H. reflexivity. Qed.

Lemma rendered_line_ok (line : str) : line_rendered line (rendered_line line).
Proof.
  unfold line_rendered, rendered_line.
  destruct (truthy (strip line)) eqn:E.
  - apply truthy_nonempty in E.
    destruct (startswith (strip line) bullet_marker); [right; left | right; right];
      repeat split; auto.
  - left. destruct (strip line); [auto | discriminate].
Qed.

Lemma new_paragraph_not_heading (t : str) (st : style) :
  is_heading (new_paragraph t st) = false.
Proof. unfold new_paragraph, is_heading. destruct (truthy t); reflexivity. Qed.

Lemma rendered_body_no_heading (f : formatted) :
  filter is_heading (rendered_body f) = [].
Proof.
  assert (G : forall ps : list paragraph,
             Forall (fun p => is_heading p = false) ps ->
             filter is_heading ps = []).
  { induction 1 as [|p ps Hp _ IH]; simpl; [|rewrite Hp]; auto. }
  apply G. destruct f as [s|items|]; simpl.
  - apply Forall_flat_map. apply Forall_forall. intros l _.
    unfold rendered_line. destruct (truthy (strip l)); [|constructor].
    destruct (startswith (strip l) bullet_marker);
      repeat constructor; apply new_paragraph_not_heading.
  - apply Forall_map, Forall_forall. intros i _.
    apply new_paragraph_not_heading.
  - constructor.
Qed.

Lemma heading_titles_section (doc : list paragraph) (title : str)
      (f : formatted) :
  heading_titles (doc ++ heading_paragraph title :: rendered_body f
                    ++ [spacer_paragraph])
  = heading_titles doc ++ [title].
Proof.
  unfold heading_titles. rewrite filter_app. simpl.
  rewrite filter_app, rendered_body_no_heading. simpl.
  rewrite map_app. simpl. unfold text. simpl. rewrite app_nil_r.
  reflexivity.
Qed.

Lemma format_section_content_keeps_document
      (llm_invoke : client -> list (client * str) -> str -> outcome formatted) :
  keeps_document (_format_section_content llm_invoke).
Proof.
  intros title content w. unfold _format_section_content.
  destruct (negb (truthy content)); reflexivity.
Qed.

Lemma subsequence_nil_l (A : Type) (l : list A) : subsequence [] l.
Proof. induction l; constructor; assumption. Qed.

(** The headings the loop over the sections adds: those of the sections
    with content, in the order of the dictionary, as far as the loop got. *)
Lemma write_sections_headings (fmt : str -> str -> M formatted) (d : dict) :
  keeps_document fmt ->
  forall w, exists done,
    heading_titles (document (exec (write_sections fmt d) w))
    = heading_titles (document w) ++ done
    /\ subsequence done (dict_keys d)
    /\ (eval (write_sections fmt d) w = Returns tt ->
        done = map fst (filter (fun kv => truthy (snd kv)) d)).
Proof.
  intros Hk. induction d as [|[k v] d IH]; intros w.
  - exists []. simpl. rewrite app_nil_r. repeat split; constructor.
  - unfold write_sections, exec, eval in *. simpl. unfold bind.
    destruct (truthy v) eqn:Ev.
    + destruct (fmt k v w) as [[f|e] w1] eqn:Ef.
      * rewrite (write_section_with_returns _ _ _ _ Ef).
        destruct (IH (append_doc (heading_paragraph k :: rendered_body f
                                    ++ [spacer_paragraph]) w1))
          as (done & Hh & Hs & Hr).
        exists (k :: done). simpl in Hh. rewrite Hh, heading_titles_section.
        pose proof (Hk k v w) as Hd. unfold exec in Hd. rewrite Ef in Hd.
        simpl in Hd. rewrite Hd, <- app_assoc. simpl.
        repeat split; [constructor; exact Hs|].
        intros H. rewrite (Hr H). reflexivity.
      * rewrite (write_section_with_raises _ _ _ _ Ef). simpl.
        exists []. rewrite app_nil_r.
        pose proof (Hk k v w) as Hd. unfold exec in Hd. rewrite Ef in Hd.
        simpl in Hd. rewrite Hd.
        repeat split; [apply subsequence_nil_l | discriminate].
    + unfold ret. destruct (IH w) as (done & Hh & Hs & Hr).
      exists done. simpl. repeat split; auto. constructor. exact Hs.
Qed.

(* ================================================================== *)
(** ** The section formatter and the document writer: claims C1 to C5 *)
(* ================================================================== *)

(** C1, as the specification has it, does not hold: with an LLM whose reply
    is blank, [write_section] still adds the heading and the spacer. *)
Lemma write_section_blank_counterexample :
  ~ (forall llm_invoke title content w s,
        eval (_format_section_content llm_invoke title content) w
        = Returns (FStr s) ->
        strip s = [] ->
        document (exec (write_section llm_invoke title content) w)
        = document w).
Proof.
  intros H.
  specialize (H llm_blank (py "Skills") (py "Python") world0 (py "   ")
                eq_refl eq_refl).
  vm_compute in H. discriminate H.
Qed.

(** C1, amended: when the formatted result is a string that is blank after
    trimming, [write_section] adds no body paragraph, but it does add the
    heading paragraph and the spacer paragraph, these two and nothing else;
    a section is left out entirely only by the loop of [format_resume],
    which does not call [write_section] for a section whose partitioned
    content is empty. *)
Theorem write_section_blank
        (llm_invoke : client -> list (client * str) -> str -> outcome formatted)
        (title content : str) (w : world) (s : str) :
  eval (_format_section_content llm_invoke title content) w
  = Returns (FStr s) ->
  strip s = [] ->
  document (exec (write_section llm_invoke title content) w)
  = document w ++ [heading_paragraph title; spacer_paragraph]
  /\ forall fmt d w',
      write_sections fmt ((title, []) :: d) w' = write_sections fmt d w'.
Proof.
  intros Hf Hs. split; [|reflexivity].
  unfold write_section, exec, eval in *.
  destruct (_format_section_content llm_invoke title content w)
    as [o w1] eqn:E. simpl in Hf. subst o.
  rewrite (write_section_with_returns _ _ _ _ E). simpl.
  pose proof (format_section_content_keeps_document llm_invoke title content w)
    as Hd. unfold exec in Hd. rewrite E in Hd. simpl in Hd. rewrite Hd.
  f_equal. f_equal.
  assert (G : forall ls, Forall (fun l => strip l = []) ls ->
                         flat_map rendered_line ls = []).
  { induction 1 as [|l ls Hl _ IH]; simpl; [reflexivity|].
    unfold rendered_line at 1. rewrite Hl, IH. reflexivity. }
  rewrite G; [reflexivity|]. apply split_on_blank, strip_blank, Hs.
Qed.

Lemma write_section_blank_witness :
  document (exec (write_section llm_blank (py "Skills") (py "Python")) world0)
  = document world0 ++ [heading_paragraph (py "Skills"); spacer_paragraph]
  /\ forall fmt d w',
      write_sections fmt ((py "Skills", []) :: d) w' = write_sections fmt d w'.
Proof.
  apply (write_section_blank llm_blank (py "Skills") (py "Python") world0
           (s := py "   ")).
  - vm_compute. reflexivity.
  - vm_compute. reflexivity.
Defined.

(** What a formatted result that is a string adds to the document: the
    heading, then what the lines of the string add in their order, then the
    spacer; a blank line adds nothing and any other line adds one
    paragraph, bullet-styled when the trimmed line starts with the marker
    and plain, with the trimmed line as its text, when it does not. *)
Theorem write_section_text_block (fmt : str -> str -> M formatted)
        (title content : str) (w w1 : world) (s : str) :
  fmt title content w = (Returns (FStr s), w1) ->
  exists body : list (list paragraph),
    document (exec (write_section_with fmt title content) w)
    = document w1 ++ heading_paragraph title :: List.concat body
        ++ [spacer_paragraph]
    /\ Forall2 line_rendered (split_on nl s) body.
Proof.
  intros H. exists (map rendered_line (split_on nl s)). split.
  - unfold exec. rewrite (write_section_with_returns _ _ _ _ H). simpl.
    rewrite flat_map_concat_map. reflexivity.
  - induction (split_on nl s) as [|l ls IH]; simpl; constructor; auto.
    apply rendered_line_ok.
Qed.

Lemma write_section_text_block_witness :
  exists body : list (list paragraph),
    document (exec (write_section_with (_format_section_content llm_bullets)
                      (py "Recent Experience") (py "led team")) world0)
    = document (exec (_format_section_content llm_bullets
                        (py "Recent Experience") (py "led team")) world0)
        ++ heading_paragraph (py "Recent Experience") :: List.concat body
        ++ [spacer_paragraph]
    /\ Forall2 line_rendered
         (split_on nl (bullet_marker ++ py " Led a team" ++ nl :: nl
                       :: py "  Shipped v2  "))
         body.
Proof.
  apply (write_section_text_block (_format_section_content llm_bullets)
           (py "Recent Experience") (py "led team") world0).
  vm_compute. reflexivity.
Defined.

(** What the writer does with a marked line, as the source stands: the
    marker is three code points long and the slice drops one. *)
Example marked_line_rendering :
  rendered_line (bullet_marker ++ py " Led a team")
  = [bullet_paragraph ([8364%N; 162%N] ++ py " Led a team")].
Proof. vm_compute. reflexivity. Qed.

(** C3, as the specification has it, does not hold for blank content that
    is not empty: a single space is sent to the LLM. *)
Lemma format_blank_content_counterexample :
  ~ (forall llm_invoke section content w,
        strip content = [] ->
        eval (_format_section_content llm_invoke section content) w
        = Returns (FStr content)
        /\ llm_calls (exec (_format_section_content llm_invoke section content) w)
           = llm_calls w).
Proof.
  intros H.
  destruct (H llm_blank (py "Skills") (py " ") world0 eq_refl) as [_ Hc].
  vm_compute in Hc. discriminate Hc.
Qed.

(** C3, amended: for every section name, the formatter returns the empty
    content as it is and makes no call to the LLM, nothing at all changes;
    any other content, blank or not, is sent to the LLM in one call whose
    outcome is the formatter's. *)
Theorem format_empty_content
        (llm_invoke : client -> list (client * str) -> str -> outcome formatted)
        (section_name : str) (w : world) :
  _format_section_content llm_invoke section_name [] w = (Returns (FStr []), w)
  /\ llm_calls (exec (_format_section_content llm_invoke section_name []) w)
     = llm_calls w
  /\ forall content,
      content <> [] ->
      eval (_format_section_content llm_invoke section_name content) w
      = llm_invoke (self_llm w) (llm_calls w)
                   (section_prompt_format section_name content)
      /\ llm_calls
           (exec (_format_section_content llm_invoke section_name content) w)
         = llm_calls w
             ++ [(self_llm w, section_prompt_format section_name content)].
Proof.
  split; [reflexivity|]. split; [reflexivity|].
  intros content Hc. unfold _format_section_content.
  destruct content as [|c content]; [contradiction|].
  split; reflexivity.
Qed.

Lemma format_empty_content_witness :
  eval (_format_section_content llm_blank (py "Skills") (py " ")) world0
  = Returns (FStr (py "   "))
  /\ llm_calls (exec (_format_section_content llm_blank (py "Skills") (py " "))
                     world0)
     = [(gpt4_client, section_prompt_format (py "Skills") (py " "))].
Proof.
  destruct (format_empty_content llm_blank (py "Skills") world0)
    as (_ & _ & H).
  apply (H (py " ")). discriminate.
Defined.

(** C4: the end-to-end scenario.  The partitioner gives the four entries of
    the specification, and with the identity formatter the document is the
    bold heading 'Professional Profile', one plain paragraph, a spacer, the
    bold heading 'Skills', one plain paragraph, a spacer. *)
Theorem end_to_end_scenario (w : world) :
  partition_sections scenario_text
  = [ (py "Professional Profile", py "Senior Engineer, 10 years");
      (py "Recent Experience", []);
      (py "Education", []);
      (py "Skills", py "Python, Go") ]
  /\ eval (format_resume_with identity_formatter scenario_text) w = Returns tt
  /\ document (exec (format_resume_with identity_formatter scenario_text) w)
     = [ heading_paragraph (py "Professional Profile");
         plain_paragraph (py "Senior Engineer, 10 years");
         spacer_paragraph;
         heading_paragraph (py "Skills");
         plain_paragraph (py "Python, Go");
         spacer_paragraph ]
  /\ heading_titles
       (document (exec (format_resume_with identity_formatter scenario_text) w))
     = [ py "Professional Profile"; py "Skills" ]
  /\ Forall (fun p => existsb run_bold (p_runs p) = true)
       [ heading_paragraph (py "Professional Profile");
         heading_paragraph (py "Skills") ].
Proof.
  repeat split; try (vm_compute; reflexivity).
  repeat constructor.
Qed.

(** C5: whatever the order of the headings in the input, the headed
    sections of the document follow the order of the four fixed names:
    their titles are a subsequence of that list, and when the run ends
    normally they are exactly the names whose partitioned content is not
    empty, in that order. *)
Theorem format_resume_section_order
        (llm_invoke : client -> list (client * str) -> str -> outcome formatted)
        (content : str) (w : world) :
  subsequence
    (heading_titles (document (exec (format_resume llm_invoke content) w)))
    section_names
  /\ (eval (format_resume llm_invoke content) w = Returns tt ->
      heading_titles (document (exec (format_resume llm_invoke content) w))
      = map fst (filter (fun kv => truthy (snd kv))
                        (partition_sections content))).
Proof.
  unfold format_resume, format_resume_with, exec, eval, bind.
  unfold ResumeWriter_init.
  set (w1 := {| llm := llm w; llm_calls := llm_calls w; document := [];
                normal_font := Some (py "Calibri", 11%N);
                output_file := py "output.docx";
                self_llm := llm w; files := files w |}).
  destruct (write_sections_headings (partition_sections content)
              (format_section_content_keeps_document llm_invoke) w1)
    as (done & Hh & Hs & Hr).
  unfold exec, eval in *. rewrite partition_keys in Hs.
  destruct (write_sections (_format_section_content llm_invoke)
              (partition_sections content) w1) as [[[]|e] w2];
    simpl in *; rewrite Hh; split; auto; discriminate.
Qed.

Lemma format_resume_section_order_witness :
  heading_titles
    (document (exec (format_resume llm_bullets repeated_text) world0))
  = map fst (filter (fun kv => truthy (snd kv))
                    (partition_sections repeated_text)).
Proof.
  apply (format_resume_section_order llm_bullets repeated_text world0).
  vm_compute. reflexivity.
Defined.

Example repeated_text_headings :
  heading_titles
    (document (exec (format_resume llm_bullets repeated_text) world0))
  = [py "Education"; py "Skills"].
Proof. vm_compute. reflexivity. Qed.

(* ================================================================== *)
(** ** The LLM client and the DOCX reader: claims C8 and C9 *)
(* ================================================================== *)

Lemma format_section_content_raises
      (llm_invoke : client -> list (client * str) -> str -> outcome formatted)
      (section content : str) (w : world) (e : exn) :
  content <> [] ->
  llm_invoke (self_llm w) (llm_calls w)
             (section_prompt_format section content) = Raises e ->
  _format_section_content llm_invoke section content w
  = (Raises e,
     record_call (self_llm w, section_prompt_format section content) w).
Proof.
  intros Hc He. unfold _format_section_content, invoke.
  destruct content; [contradiction|]. simpl. rewrite He. reflexivity.
Qed.

(** With an LLM that fails on every call, the loop over the sections raises
    at the first section with content, and no file is touched. *)
Lemma write_sections_llm_failing
      (llm_invoke : client -> list (client * str) -> str -> outcome formatted)
      (e : exn) (d : dict) :
  (forall c log p, llm_invoke c log p = Raises e) ->
  (exists kv, In kv d /\ snd kv <> []) ->
  forall w,
    eval (write_sections (_format_section_content llm_invoke) d) w = Raises e
    /\ files (exec (write_sections (_format_section_content llm_invoke) d) w)
       = files w.
Proof.
  intros Hdown. induction d as [|[k v] d IH]; intros (kv & Hin & Hv) w.
  - destruct Hin.
  - unfold write_sections, eval, exec in *. destruct v as [|c v].
    + simpl. unfold bind, ret. simpl. apply IH.
      destruct Hin as [<-|Hin]; [contradiction Hv; reflexivity|].
      exists kv. split; assumption.
    + assert (E : write_section_with (_format_section_content llm_invoke)
                                     k (c :: v) w
                  = (Raises e,
                     record_call
                       (self_llm w, section_prompt_format k (c :: v)) w)).
      { apply write_section_with_raises, format_section_content_raises;
          [discriminate | apply Hdown]. }
      simpl. unfold bind. rewrite E. split; reflexivity.
Qed.

(** C8, as the specification has it, does not hold when the second
    construction raises as well: without an API key no client can be
    constructed for any model, and [get_llm] then raises instead of
    returning a client for 'gpt-3.5-turbo'. *)
Lemma get_llm_fallback_counterexample :
  ~ (forall environ construction_error e,
        ChatOpenAI construction_error
                   (getenv environ (py "OPENAI_MODEL_NAME") (py "gpt-4"))
                   temperature_0_2 = Raises e ->
        exists c,
          get_llm environ construction_error = Returns c
          /\ model_name c = py "gpt-3.5-turbo").
Proof.
  intros H.
  destruct (H no_environ no_api_key (Exn (py "api_key must be set")) eq_refl)
    as (c & Hc & _).
  vm_compute in Hc. discriminate Hc.
Qed.

(** C8, amended: [get_llm] returns the client of the model named by the
    environment when its construction succeeds; when that construction
    raises, it ends as the construction of the client of 'gpt-3.5-turbo'
    ends: it returns that client, or raises what the second construction
    raises; every client it returns then is one for 'gpt-3.5-turbo'.
    Nothing of the kind exists at inference time: a failing call of the LLM
    is made once, with the writer's client, and its exception leaves the
    formatter, [write_section] and [format_resume] as it is, with nothing
    added to the document and nothing saved. *)
Theorem get_llm_fallback (environ : str -> option str)
        (construction_error : str -> option exn) :
  let primary := getenv environ (py "OPENAI_MODEL_NAME") (py "gpt-4") in
  (forall c,
      ChatOpenAI construction_error primary temperature_0_2 = Returns c ->
      get_llm environ construction_error = Returns c
      /\ model_name c = primary)
  /\ (forall e,
         ChatOpenAI construction_error primary temperature_0_2 = Raises e ->
         get_llm environ construction_error
         = ChatOpenAI construction_error (py "gpt-3.5-turbo") temperature_0_2
         /\ forall c, get_llm environ construction_error = Returns c ->
                      model_name c = py "gpt-3.5-turbo")
  /\ (forall llm_invoke section content w e,
         content <> [] ->
         llm_invoke (self_llm w) (llm_calls w)
                    (section_prompt_format section content) = Raises e ->
         eval (_format_section_content llm_invoke section content) w
         = Raises e
         /\ eval (write_section llm_invoke section content) w = Raises e
         /\ llm_calls (exec (write_section llm_invoke section content) w)
            = llm_calls w
                ++ [(self_llm w, section_prompt_format section content)]
         /\ document (exec (write_section llm_invoke section content) w)
            = document w)
  /\ (forall llm_invoke content w e,
         (forall c log p, llm_invoke c log p = Raises e) ->
         (exists kv, In kv (partition_sections content) /\ snd kv <> []) ->
         eval (format_resume llm_invoke content) w = Raises e
         /\ files (exec (format_resume llm_invoke content) w) = files w).
Proof.
  intros primary. split; [|split; [|split]].
  - intros c H. split.
    + unfold get_llm. fold primary. rewrite H. reflexivity.
    + unfold ChatOpenAI in H. destruct (construction_error primary);
        [discriminate H | injection H as <-; reflexivity].
  - intros e H.
    assert (G : get_llm environ construction_error
                = ChatOpenAI construction_error (py "gpt-3.5-turbo")
                             temperature_0_2)
      by (unfold get_llm; fold primary; rewrite H; reflexivity).
    split; [exact G|]. rewrite G. unfold ChatOpenAI.
    destruct (construction_error (py "gpt-3.5-turbo"));
      [discriminate | intros c [= <-]; reflexivity].
  - intros llm_invoke section content w e Hc He.
    pose proof (@format_section_content_raises llm_invoke section content
                  w e Hc He) as E.
    unfold eval, exec, write_section.
    rewrite (write_section_with_raises _ _ _ _ E), E. simpl.
    repeat split; reflexivity.
  - intros llm_invoke content w e Hdown Hsome.
    unfold format_resume, format_resume_with, eval, exec, bind.
    unfold ResumeWriter_init.
    match goal with |- context [write_sections ?f ?d ?w1] =>
      destruct (@write_sections_llm_failing llm_invoke e d Hdown Hsome w1)
        as [He Hf];
      unfold eval, exec in He, Hf;
      destruct (write_sections f d w1) as [o w2]
    end.
    simpl in He, Hf. subst o. simpl. split; [reflexivity | exact Hf].
Qed.

Lemma get_llm_fallback_witness :
  get_llm no_environ gpt4_unavailable
  = Returns {| model_name := py "gpt-3.5-turbo";
               temperature := temperature_0_2 |}
  /\ eval (write_section llm_down (py "Skills") (py "Python")) world0
     = Raises (Exn (py "rate limit"))
  /\ eval (format_resume llm_down scenario_text) world0
     = Raises (Exn (py "rate limit")).
Proof.
  destruct (get_llm_fallback no_environ gpt4_unavailable)
    as (_ & H2 & H3 & H4).
  split; [|split].
  - destruct (H2 (Exn (py "model not found")) eq_refl) as [H _].
    rewrite H. reflexivity.
  - apply (H3 llm_down (py "Skills") (py "Python") world0
              (Exn (py "rate limit"))); [discriminate | reflexivity].
  - apply (H4 llm_down scenario_text world0 (Exn (py "rate limit")));
      [reflexivity|].
    exists (py "Skills", py "Python, Go"). split; [|discriminate].
    vm_compute. do 3 right. left. reflexivity.
Defined.

Example get_llm_primary :
  get_llm no_environ (fun _ => None)
  = Returns gpt4_client.
Proof. reflexivity. Qed.

Lemma full_text_of_filter (paragraphs : list paragraph) :
  full_text_of paragraphs
  = filter truthy (map (fun p => strip (text p)) paragraphs).
Proof.
  unfold full_text_of.
  assert (G : forall acc,
             fold_left
               (fun full_text p =>
                  if truthy (strip (text p)) then full_text ++ [strip (text p)]
                  else full_text) paragraphs acc
             = acc ++ filter truthy (map (fun p => strip (text p)) paragraphs)).
  { induction paragraphs as [|p ps IH]; intros acc; simpl.
    - rewrite app_nil_r. reflexivity.
    - rewrite IH. destruct (truthy (strip (text p))); [|reflexivity].
      rewrite <- app_assoc. reflexivity. }
  apply (G []).
Qed.

(** C9: for every path, [_run] returns a string and never raises: when
    reading the document raises, the string is 'Error reading DOCX file: '
    followed by the text of the exception; otherwise it is the trimmed
    texts of the paragraphs that are not blank, joined by newlines. *)
Theorem docx_reader_run (Document : str -> outcome (list paragraph))
        (file_path : str) :
  (exists s, _run Document file_path = Returns s)
  /\ match Document file_path with
     | Returns paragraphs =>
         _run Document file_path
         = Returns (join nl (filter truthy
                               (map (fun p => strip (text p)) paragraphs)))
     | Raises e =>
         _run Document file_path
         = Returns (py "Error reading DOCX file: " ++ exn_str e)
         /\ startswith (py "Error reading DOCX file: " ++ exn_str e)
                       (py "Error reading DOCX file:") = true
     end.
Proof.
  unfold _run. destruct (Document file_path) as [ps|e]; simpl.
  - rewrite full_text_of_filter. split; [eexists|]; reflexivity.
  - split; [eexists; reflexivity|]. split; reflexivity.
Qed.

Example docx_reader_missing_file :
  _run docx_missing (py "./example.docx")
  = Returns (py "Error reading DOCX file: Package not found").
Proof. reflexivity. Qed.

Example docx_reader_reads :
  _run (fun _ => Returns [ plain_paragraph (py "  Jane Doe ");
                           spacer_paragraph;
                           bullet_paragraph (py "Python") ])
       (py "./example.docx")
  = Returns (py "Jane Doe" ++ nl :: py "Python").
Proof. reflexivity. Qed.

(* ================================================================== *)
(** ** A whole run of [format_resume] *)
(* ================================================================== *)

Lemma record_then_append (c : client * str) (cs : list (client * str))
      (b b' : list paragraph) (w : world) :
  append_doc b' (record_calls cs (append_doc b (record_call c w)))
  = append_doc (b ++ b') (record_calls (c :: cs) w).
Proof.
  unfold append_doc, record_calls, record_call. simpl.
  rewrite <- !app_assoc. reflexivity.
Qed.

Lemma record_calls_nil (w : world) : record_calls [] w = w.
Proof.
  destruct w. unfold record_calls. simpl. rewrite app_nil_r. reflexivity.
Qed.

(** What the loop over the sections does to the state: it asks the LLM once
    for each section with content, in the order of the dictionary, until a
    call raises; it adds paragraphs to the document and touches nothing
    else. *)
Lemma write_sections_effect
      (llm_invoke : client -> list (client * str) -> str -> outcome formatted)
      (d : dict) (w : world) :
  exists called rest body,
    sections_with_content d = called ++ rest
    /\ exec (write_sections (_format_section_content llm_invoke) d) w
       = append_doc body
           (record_calls (map (section_call (self_llm w)) called) w)
    /\ (eval (write_sections (_format_section_content llm_invoke) d) w
        = Returns tt -> rest = []).
Proof.
  revert w. induction d as [|[k v] d IH]; intros w.
  - exists [], [], []. simpl. rewrite record_calls_nil, append_doc_nil.
    repeat split; reflexivity.
  - unfold write_sections, exec, eval in *. simpl. unfold bind.
    destruct v as [|c v].
    + simpl. exact (IH w).
    + simpl.
      assert (E : _format_section_content llm_invoke k (c :: v) w
                  = (llm_invoke (self_llm w) (llm_calls w)
                       (section_prompt_format k (c :: v)),
                     record_call
                       (self_llm w, section_prompt_format k (c :: v)) w))
        by reflexivity.
      destruct (llm_invoke (self_llm w) (llm_calls w)
                  (section_prompt_format k (c :: v))) as [f|e].
      * rewrite (write_section_with_returns _ _ _ _ E).
        match goal with |- context [for_each _ d ?w2] =>
          destruct (IH w2) as (called & rest & body & Hs & Hw & Hr)
        end.
        exists ((k, c :: v) :: called), rest, 
          ((heading_paragraph k :: rendered_body f ++ [spacer_paragraph])
             ++ body).
        split; [unfold sections_with_content in *; simpl; rewrite Hs;
                reflexivity|].
        split; [|exact Hr].
        rewrite Hw. simpl. apply record_then_append.
      * rewrite (write_section_with_raises _ _ _ _ E). simpl.
        exists [(k, c :: v)], (sections_with_content d), [].
        split; [reflexivity|]. split; [|discriminate].
        rewrite append_doc_nil. unfold record_calls, record_call.
        reflexivity.
Qed.

(** What [format_resume] does before it saves. *)
Lemma format_resume_effect
      (llm_invoke : client -> list (client * str) -> str -> outcome formatted)
      (content : str) (w : world) :
  exists called rest body,
    sections_with_content (partition_sections content) = called ++ rest
    /\ (eval (format_resume llm_invoke content) w = Returns tt -> rest = [])
    /\ llm_calls (exec (format_resume llm_invoke content) w)
       = llm_calls w ++ map (section_call (llm w)) called
    /\ document (exec (format_resume llm_invoke content) w) = body
    /\ match eval (format_resume llm_invoke content) w with
       | Returns _ =>
           files (exec (format_resume llm_invoke content) w)
           = (py "output.docx", body) :: files w
       | Raises _ =>
           files (exec (format_resume llm_invoke content) w) = files w
       end.
Proof.
  unfold format_resume, format_resume_with, exec, eval, bind.
  unfold ResumeWriter_init.
  match goal with |- context [write_sections ?f ?d ?w1] =>
    destruct (write_sections_effect llm_invoke d w1)
      as (called & rest & body & Hs & Hw & Hr);
    unfold exec, eval in Hw, Hr;
    destruct (write_sections f d w1) as [[[]|e] w2]
  end; simpl in *; subst w2; exists called, rest, body; simpl;
    repeat split; auto; discriminate.
Qed.

(** X1: a run that ends normally saves the document once, under
    'output.docx', and what it saves is the document as it stands at the
    end; a run that raises saves nothing, so no partial document is ever
    written.  This holds for every input and every LLM. *)
Theorem format_resume_saves_whole_or_nothing
        (llm_invoke : client -> list (client * str) -> str -> outcome formatted)
        (content : str) (w : world) :
  match eval (format_resume llm_invoke content) w with
  | Returns _ =>
      files (exec (format_resume llm_invoke content) w)
      = (py "output.docx",
         document (exec (format_resume llm_invoke content) w)) :: files w
  | Raises _ =>
      files (exec (format_resume llm_invoke content) w) = files w
  end.
Proof.
  destruct (format_resume_effect llm_invoke content w)
    as (called & rest & body & _ & _ & _ & Hd & Hf).
  rewrite Hd. exact Hf.
Qed.

(** X2: in a run that ends normally the LLM is asked exactly once for each
    section whose partitioned content is not empty, in the order of the four
    names, with the client bound to [llm] when the writer was made and with
    the prompt made of the section's name and content. *)
Theorem format_resume_calls
        (llm_invoke : client -> list (client * str) -> str -> outcome formatted)
        (content : str) (w : world) :
  eval (format_resume llm_invoke content) w = Returns tt ->
  llm_calls (exec (format_resume llm_invoke content) w)
  = llm_calls w
      ++ map (section_call (llm w))
             (sections_with_content (partition_sections content)).
Proof.
  intros H.
  destruct (format_resume_effect llm_invoke content w)
    as (called & rest & body & Hs & Hr & Hc & _).
  rewrite Hc, Hs, (Hr H), app_nil_r. reflexivity.
Qed.

Lemma format_resume_calls_witness :
  llm_calls (exec (format_resume llm_bullets repeated_text) world0)
  = llm_calls world0
      ++ map (section_call (llm world0))
             (sections_with_content (partition_sections repeated_text)).
Proof.
  apply (format_resume_calls llm_bullets repeated_text world0).
  vm_compute. reflexivity.
Defined.

(** X3: whatever the input and however the run ends, [format_resume] asks
    the LLM at most four times. *)
Theorem format_resume_at_most_four_calls
        (llm_invoke : client -> list (client * str) -> str -> outcome formatted)
        (content : str) (w : world) :
  List.length (llm_calls (exec (format_resume llm_invoke content) w))
  <= List.length (llm_calls w) + 4.
Proof.
  destruct (format_resume_effect llm_invoke content w)
    as (called & rest & body & Hs & _ & Hc & _).
  rewrite Hc, length_app, length_map.
  assert (H4 : List.length (partition_sections content) = 4).
  { rewrite <- (length_map fst). fold (dict_keys (partition_sections content)).
    rewrite partition_keys. reflexivity. }
  assert (Hle : List.length (called ++ rest) <= 4).
  { rewrite <- Hs, <- H4. unfold sections_with_content. apply filter_length_le. }
  rewrite length_app in Hle. lia.
Qed.

(** X4: an input without any heading line still gives a normal run: the LLM
    is not asked anything, the document is empty, and that empty document
    is saved under 'output.docx'. *)
Theorem format_resume_without_headings
        (llm_invoke : client -> list (client * str) -> str -> outcome formatted)
        (content : str) (w : world) :
  Forall nameless (trimmed_lines content) ->
  eval (format_resume llm_invoke content) w = Returns tt
  /\ llm_calls (exec (format_resume llm_invoke content) w) = llm_calls w
  /\ document (exec (format_resume llm_invoke content) w) = []
  /\ files (exec (format_resume llm_invoke content) w)
     = (py "output.docx", []) :: files w.
Proof.
  intros H.
  assert (E : partition_sections content = sections_init).
  { unfold partition_sections. rewrite scan_trimmed.
    fold (trimmed_lines content).
    rewrite (scan_nameless_idle scan_init_wf eq_refl H). reflexivity. }
  unfold format_resume, format_resume_with. rewrite E.
  repeat split; reflexivity.
Qed.

Lemma format_resume_without_headings_witness :
  eval (format_resume llm_down (py "Jane Doe" ++ nl :: py "Experience"))
       world0 = Returns tt
  /\ llm_calls (exec (format_resume llm_down
                        (py "Jane Doe" ++ nl :: py "Experience")) world0)
     = llm_calls world0
  /\ document (exec (format_resume llm_down
                       (py "Jane Doe" ++ nl :: py "Experience")) world0) = []
  /\ files (exec (format_resume llm_down
                    (py "Jane Doe" ++ nl :: py "Experience")) world0)
     = (py "output.docx", []) :: files world0.
Proof.
  apply (format_resume_without_headings llm_down
           (py "Jane Doe" ++ nl :: py "Experience") world0).
  vm_compute. prove_nameless.
Defined.

(* ================================================================== *)
(** ** More on the content partitioner *)
(* ================================================================== *)

Lemma lstrip_solid (s : str) : starts_solid s -> lstrip s = s.
Proof. intros (c & t & -> & Hc). simpl. rewrite Hc. reflexivity. Qed.

Lemma lstrip_starts_solid (s : str) : lstrip s <> [] -> starts_solid (lstrip s).
Proof.
  intros H. destruct (lstrip s) as [|c t] eqn:E; [contradiction|].
  exists c, t. split; [reflexivity | exact (lstrip_head _ E)].
Qed.

(** [lstrip] only removes a prefix. *)
Lemma lstrip_suffix (s : str) : exists ws, s = ws ++ lstrip s.
Proof.
  induction s as [|c s (ws & IH)]; [exists []; reflexivity|].
  simpl. destruct (isspace c).
  - exists (c :: ws). simpl. rewrite <- IH. reflexivity.
  - exists []. reflexivity.
Qed.

Lemma starts_solid_app (a b : str) : starts_solid a -> starts_solid (a ++ b).
Proof. intros (c & t & -> & Hc). exists c, (t ++ b). auto. Qed.

Lemma solid_strip (s : str) : solid s -> strip s = s.
Proof.
  intros [Hs He]. unfold strip, rstrip.
  rewrite (lstrip_solid Hs), (lstrip_solid He). apply rev_involutive.
Qed.

(** What [strip] returns is empty or has no white space at either end. *)
Lemma strip_solid (s : str) : strip s <> [] -> solid (strip s).
Proof.
  unfold strip, rstrip. intros H.
  set (t := lstrip s) in *. set (u := lstrip (rev t)) in *.
  assert (Hu : u <> []) by (intros E; rewrite E in H; apply H; reflexivity).
  split.
  - destruct (lstrip_suffix (rev t)) as (ws & Hws). fold u in Hws.
    assert (Ht : t = rev u ++ rev ws).
    { rewrite <- rev_app_distr, <- Hws, rev_involutive. reflexivity. }
    assert (Hne : t <> []).
    { rewrite Ht. intros E. apply app_eq_nil in E as [E _].
      apply H. exact E. }
    destruct (lstrip_starts_solid s Hne) as (c & t' & Hc & Hsp).
    fold t in Hc. destruct (rev u) as [|x r] eqn:Er; [contradiction H; reflexivity|].
    rewrite Hc in Ht. simpl in Ht. injection Ht as Hcx _.
    exists x, r. split; [reflexivity | rewrite <- Hcx; exact Hsp].
  - rewrite rev_involutive. apply lstrip_starts_solid. exact Hu.
Qed.

Lemma solid_join (l : str) (ls : list str) :
  Forall solid (l :: ls) -> solid (join nl (l :: ls)).
Proof.
  revert l. induction ls as [|l' ls IH]; intros l H.
  - inversion H; subst. assumption.
  - inversion H as [|? ? [Hs He] Hrest]; subst.
    change (join nl (l :: l' :: ls)) with (l ++ nl :: join nl (l' :: ls)).
    destruct (IH l' Hrest) as [_ He']. split.
    + apply starts_solid_app. exact Hs.
    + rewrite rev_app_distr. simpl. rewrite <- app_assoc.
      apply starts_solid_app. exact He'.
Qed.

(** The lines of a stored content: the non-empty trimmed lines between one
    occurrence of the heading and the end of its body. *)
Lemma stored_lines (content k v : str) :
  In (k, v) (partition_sections content) -> v <> [] ->
  exists l1 seg l2,
    trimmed_lines content = l1 ++ k :: seg ++ l2
    /\ Forall nameless seg
    /\ filter truthy seg <> []
    /\ v = join nl (filter truthy seg)
    /\ split_on nl v = filter truthy seg.
Proof.
  intros Hin Hv.
  pose proof (partition_blocks content) as Hall.
  rewrite Forall_forall in Hall. specialize (Hall _ Hin).
  destruct Hall as [H|(l1 & seg & l2 & Hd & Hs & He & Hj)];
    simpl in *; [contradiction|].
  assert (Hne : filter truthy seg <> []).
  { intros E. rewrite E in Hj. simpl in Hj. contradiction. }
  exists l1, seg, l2. repeat split; auto.
  rewrite Hj. apply split_on_join; [exact Hne|].
  pose proof (trimmed_lines_no_nl content) as Hn.
  rewrite Hd in Hn. rewrite Forall_forall in *.
  intros l Hl. apply filter_In in Hl as [Hl _]. apply Hn.
  apply in_or_app. right. right. apply in_or_app. left. exact Hl.
Qed.

Lemma trimmed_lines_solid (content : str) (l : str) :
  In l (trimmed_lines content) -> l <> [] -> solid l.
Proof.
  unfold trimmed_lines. intros Hin Hl.
  apply in_map_iff in Hin as (raw & <- & _). apply strip_solid. exact Hl.
Qed.

Lemma dict_get_keys (k : str) (d : dict) :
  In k (dict_keys d) -> exists v, dict_get k d = Some v.
Proof.
  induction d as [|[k' v'] d IH]; simpl; [tauto|].
  intros H. destruct (str_eqb k' k) eqn:E; [eexists; reflexivity|].
  apply IH. destruct H as [H|H]; [|exact H].
  subst. rewrite str_eqb_refl in E. discriminate.
Qed.

Lemma dict_get_not_keys (k : str) (d : dict) :
  ~ In k (dict_keys d) -> dict_get k d = None.
Proof.
  induction d as [|[k' v'] d IH]; simpl; [reflexivity|].
  intros H. destruct (str_eqb k' k) eqn:E.
  - apply str_eqb_eq in E. tauto.
  - apply IH. tauto.
Qed.

(** Empty lines change nothing in the loop. *)
Lemma scan_skips_empty (ls : list str) (st : scan_state) :
  scan_wf st ->
  fold_left scan_step ls st = fold_left scan_step (filter truthy ls) st.
Proof.
  revert st. induction ls as [|l ls IH]; intros st Hwf; simpl; [reflexivity|].
  destruct l as [|c l]; simpl.
  - assert (Hn : nameless []) by prove_nameless.
    rewrite (scan_step_nameless Hwf Hn).
    destruct (current_section st); simpl; apply IH, Hwf.
  - apply IH, scan_step_wf, Hwf.
Qed.

(** X5: every content the partitioner stores is already trimmed: it has no
    white space at either end, so it is blank only when it is empty, and
    the test [if content:] of [format_resume] lets no blank content reach
    the formatter. *)
Theorem partition_content_trimmed (content k v : str) :
  In (k, v) (partition_sections content) -> strip v = v.
Proof.
  intros Hin. destruct v as [|c v]; [reflexivity|].
  destruct (@stored_lines content k (c :: v) Hin)
    as (l1 & seg & l2 & Hd & _ & Hne & Hj & _); [discriminate|].
  rewrite Hj. apply solid_strip.
  destruct (filter truthy seg) as [|l ls] eqn:E; [contradiction|].
  apply solid_join. rewrite <- E. apply Forall_forall. intros x Hx.
  apply filter_In in Hx as [Hx Ht].
  apply (@trimmed_lines_solid content).
  - rewrite Hd. apply in_or_app. right. right. apply in_or_app. left. exact Hx.
  - apply truthy_nonempty. exact Ht.
Qed.

Lemma partition_content_trimmed_witness :
  strip (py "Go" ++ nl :: py "Go") = py "Go" ++ nl :: py "Go".
Proof.
  apply (partition_content_trimmed
           (py "Skills" ++ nl :: py "  Go " ++ nl :: nl :: py " Go")
           (py "Skills")).
  vm_compute. do 3 right. left. reflexivity.
Defined.

(** X6: no line of a stored content is one of the four section names, none
    is empty, and each is trimmed: a heading never ends up inside a body,
    and the blank lines of the input are gone. *)
Theorem partition_content_lines (content k v : str) :
  In (k, v) (partition_sections content) -> v <> [] ->
  Forall (fun l => nameless l /\ l <> [] /\ strip l = l) (split_on nl v).
Proof.
  intros Hin Hv.
  destruct (@stored_lines content k v Hin Hv)
    as (l1 & seg & l2 & Hd & Hs & _ & _ & Hsplit).
  rewrite Hsplit. apply Forall_forall. intros l Hl.
  apply filter_In in Hl as [Hl Ht]. apply truthy_nonempty in Ht.
  rewrite Forall_forall in Hs. repeat split; auto.
  apply solid_strip, (@trimmed_lines_solid content); [|exact Ht].
  rewrite Hd. apply in_or_app. right. right. apply in_or_app. left. exact Hl.
Qed.

Lemma partition_content_lines_witness :
  Forall (fun l => nameless l /\ l <> [] /\ strip l = l)
         (split_on nl (py "Go" ++ nl :: py "Go")).
Proof.
  apply (partition_content_lines repeated_text (py "Skills")).
  - vm_compute. do 3 right. left. reflexivity.
  - discriminate.
Defined.

(** X7: whatever the input, the partition has exactly the four names as
    keys, in their fixed order: looking up a section name always finds a
    content, and a line that is not one of the four names never becomes a
    key. *)
Theorem partition_lookup (content : str) :
  dict_keys (partition_sections content) = section_names
  /\ (forall k, In k section_names ->
        exists v, dict_get k (partition_sections content) = Some v)
  /\ (forall k, nameless k ->
        dict_get k (partition_sections content) = None).
Proof.
  pose proof (partition_keys content) as Hk. split; [exact Hk|]. split.
  - intros k H. apply dict_get_keys. rewrite Hk. exact H.
  - intros k H. apply dict_get_not_keys. rewrite Hk. exact H.
Qed.

Lemma partition_lookup_witness :
  (exists v, dict_get (py "Education")
               (partition_sections (py "Work History" ++ nl :: py "ACME"))
             = Some v)
  /\ dict_get (py "Work History")
       (partition_sections (py "Work History" ++ nl :: py "ACME")) = None.
Proof.
  destruct (partition_lookup (py "Work History" ++ nl :: py "ACME"))
    as (_ & H1 & H2).
  split.
  - apply H1. vm_compute. do 2 right. left. reflexivity.
  - apply H2. intros H. vm_compute in H.
    repeat (destruct H as [H|H]; [discriminate H|]). exact H.
Defined.

(** X8: a section whose heading occurs nowhere in the input stays empty,
    whatever the other lines are. *)
Theorem partition_absent_heading (content k : str) :
  In k section_names -> ~ In k (trimmed_lines content) ->
  dict_get k (partition_sections content) = Some [].
Proof.
  intros Hk Habs.
  destruct (@dict_get_keys k (partition_sections content)) as [v Hv];
    [rewrite partition_keys; exact Hk|].
  rewrite Hv. f_equal. destruct v as [|c v]; [reflexivity|].
  destruct (@stored_lines content k (c :: v) (@dict_get_In k (c :: v) _ Hv))
    as (l1 & seg & l2 & Hd & _); [discriminate|].
  exfalso. apply Habs. rewrite Hd. apply in_or_app. right. left. reflexivity.
Qed.

Lemma partition_absent_heading_witness :
  dict_get (py "Education") (partition_sections scenario_text) = Some [].
Proof.
  apply (partition_absent_heading scenario_text).
  - vm_compute. do 2 right. left. reflexivity.
  - intros H. vm_compute in H.
    repeat (destruct H as [H|H]; [discriminate H|]). exact H.
Defined.

(** X9: a heading that comes again with nothing but empty lines after it
    does not clear its section: the content stored from the occurrence
    before it stays. *)
Theorem partition_empty_repeat (content k : str)
        (l1 seg seg' l3 : list str) :
  trimmed_lines content = l1 ++ k :: seg ++ k :: seg' ++ l3 ->
  In k section_names ->
  Forall nameless seg -> filter truthy seg <> [] ->
  Forall nameless seg' -> filter truthy seg' = [] ->
  body_ends l3 -> ~ In k l3 ->
  dict_get k (partition_sections content)
  = Some (join nl (filter truthy seg)).
Proof.
  intros Hd Hk Hs Hne Hs' He' He Hlast.
  unfold partition_sections. rewrite scan_trimmed.
  fold (trimmed_lines content). rewrite Hd.
  rewrite fold_left_app. simpl. rewrite fold_left_app. simpl.
  rewrite fold_left_app.
  set (st1 := fold_left scan_step l1 scan_init).
  assert (Hwf1 : scan_wf st1) by apply scan_steps_wf, scan_init_wf.
  pose proof (scan_step_wf k Hwf1) as Hwf2.
  rewrite (scan_step_name Hwf1 Hk) in *.
  rewrite (scan_nameless_body (c := k) Hwf2 eq_refl Hs). simpl.
  set (st3 := {| sections := flush st1; current_section := Some k;
                 current_content := filter truthy seg |}).
  assert (Hwf3 : scan_wf st3).
  { split; simpl; [apply flush_keys; exact Hwf1 | intros c [= <-]; exact Hk]. }
  assert (Hf3 : flush st3
                = dict_set k (join nl (filter truthy seg)) (flush st1)).
  { unfold flush at 1. simpl. rewrite (section_names_truthy Hk).
    destruct (filter truthy seg); [contradiction | reflexivity]. }
  pose proof (scan_step_wf k Hwf3) as Hwf4.
  rewrite (scan_step_name Hwf3 Hk) in *.
  rewrite (scan_nameless_body (c := k) Hwf4 eq_refl Hs'). simpl.
  rewrite He'.
  set (st5 := {| sections := flush st3; current_section := Some k;
                 current_content := [] |}).
  assert (Hwf5 : scan_wf st5).
  { split; simpl; [apply flush_keys; exact Hwf3 | intros c [= <-]; exact Hk]. }
  assert (Hf5 : flush st5 = flush st3).
  { unfold flush at 1. simpl. rewrite andb_false_r. reflexivity. }
  destruct He as [->|(h & t & -> & Hh)].
  - simpl. rewrite Hf5, Hf3. apply dict_get_set_same.
  - simpl. rewrite (scan_step_name Hwf5 Hh).
    rewrite scan_keeps_other.
    + simpl. rewrite Hf5, Hf3. apply dict_get_set_same.
    + split; simpl; [apply flush_keys; exact Hwf5 | intros c [= <-]; exact Hh].
    + simpl. intros c [= <-] ->. apply Hlast. left. reflexivity.
    + intros H. apply Hlast. right. exact H.
Qed.

Lemma partition_empty_repeat_witness :
  dict_get (py "Skills")
    (partition_sections
       (py "Skills" ++ nl :: py "Python" ++ nl :: py "Skills" ++ nl :: nl
        :: py "Education" ++ nl :: py "BSc"))
  = Some (join nl (filter truthy [py "Python"])).
Proof.
  apply (partition_empty_repeat
           (py "Skills" ++ nl :: py "Python" ++ nl :: py "Skills" ++ nl :: nl
            :: py "Education" ++ nl :: py "BSc")
           [] (seg := [py "Python"]) (seg' := [[]])
           (l3 := [py "Education"; py "BSc"])).
  - vm_compute. reflexivity.
  - vm_compute. do 3 right. left. reflexivity.
  - prove_nameless.
  - vm_compute. discriminate.
  - prove_nameless.
  - reflexivity.
  - right. exists (py "Education"), [py "BSc"]. split; [reflexivity|].
    vm_compute. do 2 right. left. reflexivity.
  - intros H. vm_compute in H.
    repeat (destruct H as [H|H]; [discriminate H|]). exact H.
Defined.

(** X10: the partition depends only on the non-empty trimmed lines of the
    input: two inputs that differ in indentation, trailing white space or
    blank lines are partitioned alike. *)
Theorem partition_ignores_blank_space (content content' : str) :
  filter truthy (trimmed_lines content)
  = filter truthy (trimmed_lines content') ->
  partition_sections content = partition_sections content'.
Proof.
  intros H. unfold partition_sections. rewrite !scan_trimmed.
  fold (trimmed_lines content) (trimmed_lines content').
  rewrite (scan_skips_empty (trimmed_lines content) scan_init_wf).
  rewrite (scan_skips_empty (trimmed_lines content') scan_init_wf).
  rewrite H. reflexivity.
Qed.

Lemma partition_ignores_blank_space_witness :
  partition_sections (py "  Skills " ++ nl :: nl :: py "   Go")
  = partition_sections (py "Skills" ++ nl :: py "Go" ++ [nl]).
Proof.
  apply partition_ignores_blank_space. vm_compute. reflexivity.
Defined.

(* ================================================================== *)
(** ** More on the LLM client, the writer and the reader *)
(* ================================================================== *)

(** X11: [get_llm] raises exactly when both constructions raise, and then
    with the exception of the second one: that of the first is lost.  A
    client it returns has the temperature 0.2 and is for the model named by
    the environment or for 'gpt-3.5-turbo'; without the variable
    OPENAI_MODEL_NAME the first model tried is 'gpt-4'. *)
Theorem get_llm_outcomes (environ : str -> option str)
        (construction_error : str -> option exn) :
  let primary := getenv environ (py "OPENAI_MODEL_NAME") (py "gpt-4") in
  (forall c, get_llm environ construction_error = Returns c ->
     temperature c = temperature_0_2
     /\ (model_name c = primary \/ model_name c = py "gpt-3.5-turbo"))
  /\ (forall e, get_llm environ construction_error = Raises e <->
        (exists e1, construction_error primary = Some e1)
        /\ construction_error (py "gpt-3.5-turbo") = Some e)
  /\ (environ (py "OPENAI_MODEL_NAME") = None -> primary = py "gpt-4").
Proof.
  intros primary. unfold get_llm. fold primary. unfold ChatOpenAI, otry.
  split; [|split].
  - intros c. destruct (construction_error primary).
    + destruct (construction_error (py "gpt-3.5-turbo"));
        [discriminate | intros [= <-]; simpl; auto].
    + intros [= <-]. simpl. auto.
  - intros e. destruct (construction_error primary) as [e1|].
    + destruct (construction_error (py "gpt-3.5-turbo")) as [e2|]; split.
      * intros [= ->]. split; [exists e1|]; reflexivity.
      * intros [_ [= ->]]. reflexivity.
      * discriminate.
      * intros [_ H]. discriminate H.
    + split; [discriminate | intros [[e1 H] _]; discriminate H].
  - intros H. unfold primary, getenv. rewrite H. reflexivity.
Qed.

Lemma get_llm_outcomes_witness :
  get_llm no_environ no_api_key = Raises (Exn (py "api_key must be set"))
  /\ getenv no_environ (py "OPENAI_MODEL_NAME") (py "gpt-4") = py "gpt-4".
Proof.
  destruct (get_llm_outcomes no_environ no_api_key) as (_ & H2 & H3).
  split.
  - apply H2. split; [eexists|]; reflexivity.
  - apply H3. reflexivity.
Defined.

Lemma text_new_paragraph (t : str) (st : style) : text (new_paragraph t st) = t.
Proof.
  unfold text, new_paragraph. destruct t as [|c t]; simpl; [reflexivity|].
  rewrite app_nil_r. reflexivity.
Qed.

(** X12: when the formatted result is a list, every item becomes one
    bullet-styled paragraph between the heading and the spacer, in the
    order of the list, with the item as its text: unlike the lines of a
    string, the items are neither trimmed nor left out when blank. *)
Theorem write_section_list (fmt : str -> str -> M formatted)
        (title content : str) (w w1 : world) (items : list str) :
  fmt title content w = (Returns (FList items), w1) ->
  exists body,
    document (exec (write_section_with fmt title content) w)
    = document w1 ++ heading_paragraph title :: body ++ [spacer_paragraph]
    /\ map text body = items
    /\ Forall (fun p => p_style p = StyleListBullet) body.
Proof.
  intros H. exists (map (fun item => new_paragraph item StyleListBullet) items).
  split; [|split].
  - unfold exec. rewrite (write_section_with_returns _ _ _ _ H). reflexivity.
  - rewrite map_map. rewrite <- (map_id items) at 2. apply map_ext.
    intros a. apply text_new_paragraph.
  - apply Forall_map, Forall_forall. intros a _. reflexivity.
Qed.

Lemma write_section_list_witness :
  exists body,
    document (exec (write_section_with
                      (fun _ _ => ret (FList [py "Python"; py "  "; []]))
                      (py "Skills") (py "x")) world0)
    = document world0 ++ heading_paragraph (py "Skills") :: body
        ++ [spacer_paragraph]
    /\ map text body = [py "Python"; py "  "; []]
    /\ Forall (fun p => p_style p = StyleListBullet) body.
Proof.
  apply (write_section_list (fun _ _ => ret (FList [py "Python"; py "  "; []]))
           (py "Skills") (py "x") world0).
  reflexivity.
Defined.

Lemma join_cons_cons (sep : char) (a b : str) (l : list str) :
  join sep (a :: b :: l) = a ++ sep :: join sep (b :: l).
Proof. reflexivity. Qed.

(** A joined list determines the end of any one of its parts, the rest
    being fixed. *)
Lemma join_inj_part (sep : char) (pre : list str) (p : str)
      (post : list str) (c1 c2 : str) :
  join sep (pre ++ (p ++ c1) :: post) = join sep (pre ++ (p ++ c2) :: post) ->
  c1 = c2.
Proof.
  induction pre as [|a pre IH]; simpl app.
  - destruct post as [|q post].
    + simpl. apply app_inv_head.
    + rewrite !join_cons_cons, <- !app_assoc. intros H.
      apply app_inv_head in H. apply app_inv_tail in H. exact H.
  - destruct (pre ++ (p ++ c1) :: post) as [|x1 r1] eqn:E1;
      [destruct pre; discriminate E1|].
    destruct (pre ++ (p ++ c2) :: post) as [|x2 r2] eqn:E2;
      [destruct pre; discriminate E2|].
    rewrite !join_cons_cons. intros H. apply app_inv_head in H.
    injection H as H. apply IH. exact H.
Qed.

(** X13: the prompt of a section holds its content whole: for one section
    name, two contents that give the same prompt are the same content. *)
Theorem section_prompt_format_content (section_name c1 c2 : str) :
  section_prompt_format section_name c1
  = section_prompt_format section_name c2 ->
  c1 = c2.
Proof.
  intros H.
  exact (join_inj_part nl
           [ [];
             py "            Format the following " ++ section_name
               ++ py " section content for a resume, ensuring it is:";
             py "            1. Concise and impactful";
             py "            2. Uses action verbs";
             py "            3. Quantifies achievements where possible";
             py "            4. Is ATS-friendly";
             py "            5. Maintains professional tone";
             [];
             py "            Content:" ]
           (py "            ")
           [ [];
             py "            Return only the formatted content without any additional commentary.";
             py "            " ]
           c1 c2 H).
Qed.

Lemma section_prompt_format_content_witness :
  py "Python" = py "Python".
Proof.
  apply (@section_prompt_format_content (py "Skills") (py "Python")
           (py "Python")).
  reflexivity.
Defined.

Lemma strip_idempotent (s : str) : strip (strip s) = strip s.
Proof.
  destruct (strip s) as [|c t] eqn:E; [reflexivity|].
  rewrite <- E. apply solid_strip, strip_solid. rewrite E. discriminate.
Qed.

Lemma filter_truthy_nil (ls : list str) :
  filter truthy ls = [] <-> Forall (fun l => l = []) ls.
Proof.
  induction ls as [|l ls IH]; simpl.
  - split; constructor.
  - destruct l as [|c l]; simpl.
    + rewrite IH. split; [constructor; auto | intros H; inversion H; auto].
    + split; [discriminate | intros H; inversion H; discriminate].
Qed.

(** X14: when the document can be read, the text [_run] returns has no
    white space at either end, and it is the empty string exactly when
    every paragraph of the document is blank (in particular when there is
    none). *)
Theorem docx_reader_success (Document : str -> outcome (list paragraph))
        (file_path : str) (paragraphs : list paragraph) :
  Document file_path = Returns paragraphs ->
  exists s,
    _run Document file_path = Returns s
    /\ strip s = s
    /\ (s = [] <-> Forall (fun p => strip (text p) = []) paragraphs).
Proof.
  intros H. unfold _run. rewrite H. simpl. rewrite full_text_of_filter.
  eexists. split; [reflexivity|].
  set (ls := map (fun p => strip (text p)) paragraphs).
  assert (Hb : Forall (fun p => strip (text p) = []) paragraphs
               <-> Forall (fun l => l = []) ls).
  { unfold ls. rewrite Forall_map. reflexivity. }
  rewrite Hb, <- filter_truthy_nil.
  assert (Hsolid : Forall solid (filter truthy ls)).
  { apply Forall_forall. intros l Hl. apply filter_In in Hl as [Hl Ht].
    unfold ls in Hl. apply in_map_iff in Hl as (p & <- & _).
    apply strip_solid, truthy_nonempty, Ht. }
  destruct (filter truthy ls) as [|l rest]; [split; [reflexivity | tauto]|].
  pose proof (solid_join Hsolid) as Hj. split.
  - apply solid_strip. exact Hj.
  - destruct Hj as [(c & t & E & _) _]. rewrite E. split; discriminate.
Qed.

Lemma docx_reader_success_witness :
  exists s,
    _run (fun _ => Returns [spacer_paragraph; plain_paragraph (py "   ")])
         (py "./example.docx") = Returns s
    /\ strip s = s
    /\ (s = [] <-> Forall (fun p => strip (text p) = [])
                     [spacer_paragraph; plain_paragraph (py "   ")]).
Proof.
  apply (docx_reader_success
           (fun _ => Returns [spacer_paragraph; plain_paragraph (py "   ")])
           (py "./example.docx")).
  reflexivity.
Defined.

(** X15: a failure of [_run] is reported in the text it returns and nowhere
    else: a document whose only paragraph reads as the error message gives
    the very same result as the failure with that message. *)
Theorem docx_reader_error_in_band (e : exn) (file_path : str) :
  strip (py "Error reading DOCX file: " ++ exn_str e)
  = py "Error reading DOCX file: " ++ exn_str e ->
  _run (fun _ => Returns [plain_paragraph
                            (py "Error reading DOCX file: " ++ exn_str e)])
       file_path
  = _run (fun _ => Raises e) file_path.
Proof.
  intros H. unfold _run, obind, otry, full_text_of, plain_paragraph.
  cbn [fold_left]. rewrite text_new_paragraph, H.
  assert (T : truthy (py "Error reading DOCX file: " ++ exn_str e) = true)
    by reflexivity.
  rewrite T. reflexivity.
Qed.

Lemma docx_reader_error_in_band_witness :
  _run (fun _ => Returns [plain_paragraph
                            (py "Error reading DOCX file: "
                               ++ exn_str (Exn (py "Package not found")))])
       (py "./example.docx")
  = _run (fun _ => Raises (Exn (py "Package not found")))
         (py "./example.docx").
Proof.
  apply (docx_reader_error_in_band (Exn (py "Package not found"))).
  vm_compute. reflexivity.
Defined.

Lemma new_paragraph_plain_runs (t : str) (st : style) :
  Forall plain_run (p_runs (new_paragraph t st)).
Proof.
  unfold new_paragraph. destruct (truthy t); repeat constructor.
Qed.

Lemma rendered_body_paragraphs (f : formatted) :
  Forall body_paragraph (rendered_body f).
Proof.
  assert (Hb : forall t, body_paragraph (new_paragraph t StyleListBullet)).
  { intros t. split; [apply new_paragraph_not_heading|].
    split; [|apply new_paragraph_plain_runs].
    intros E. apply (f_equal p_style) in E. discriminate E. }
  destruct f as [s|items|]; simpl.
  - apply Forall_flat_map, Forall_forall. intros l _.
    unfold rendered_line. destruct (truthy (strip l)) eqn:E; [|constructor].
    destruct (startswith (strip l) bullet_marker).
    + constructor; [apply Hb | constructor].
    + constructor; [|constructor].
      split; [apply new_paragraph_not_heading|].
      split; [|apply new_paragraph_plain_runs].
      intros E'. apply (f_equal p_runs) in E'. unfold new_paragraph in E'.
      rewrite E in E'. discriminate E'.
  - apply Forall_map, Forall_forall. intros i _. apply Hb.
  - constructor.
Qed.

(** The document the loop over the sections builds, block by block. *)
Lemma write_sections_blocks
      (llm_invoke : client -> list (client * str) -> str -> outcome formatted)
      (d : dict) (w : world) :
  exists blocks,
    document (exec (write_sections (_format_section_content llm_invoke) d) w)
    = document w ++ flat_map section_block blocks
    /\ Forall (fun kb => Forall body_paragraph (snd kb)) blocks.
Proof.
  revert w. induction d as [|[k v] d IH]; intros w.
  - exists []. simpl. rewrite app_nil_r. split; [reflexivity | constructor].
  - unfold write_sections, exec in *. simpl. unfold bind.
    destruct (truthy v) eqn:Ev; [|exact (IH w)].
    destruct (_format_section_content llm_invoke k v w) as [[f|e] w1] eqn:E.
    + rewrite (write_section_with_returns _ _ _ _ E).
      match goal with |- context [for_each _ d ?w2] =>
        destruct (IH w2) as (blocks & Hd & Hb)
      end.
      exists ((k, rendered_body f) :: blocks). split.
      * rewrite Hd. simpl.
        pose proof (format_section_content_keeps_document llm_invoke k v w)
          as Hk. unfold exec in Hk. rewrite E in Hk. simpl in Hk.
        rewrite Hk, <- app_assoc. reflexivity.
      * constructor; [apply rendered_body_paragraphs | exact Hb].
    + rewrite (write_section_with_raises _ _ _ _ E). simpl.
      exists []. simpl. rewrite app_nil_r.
      pose proof (format_section_content_keeps_document llm_invoke k v w)
        as Hk. unfold exec in Hk. rewrite E in Hk. simpl in Hk.
      split; [exact Hk | constructor].
Qed.

(** X16: however a run ends, its document is a sequence of whole blocks,
    each a heading, a body and the spacer; no paragraph of a body is a
    heading or the spacer, and no run of a body is bold or sets a size: the
    14 point bold heading runs are the only ones that override the font of
    'Normal', which is Calibri at 11 points. *)
Theorem format_resume_document_blocks
        (llm_invoke : client -> list (client * str) -> str -> outcome formatted)
        (content : str) (w : world) :
  exists blocks,
    document (exec (format_resume llm_invoke content) w)
    = flat_map section_block blocks
    /\ Forall (fun kb => Forall body_paragraph (snd kb)) blocks
    /\ normal_font (exec (format_resume llm_invoke content) w)
       = Some (py "Calibri", 11%N).
Proof.
  unfold format_resume, format_resume_with, exec, bind.
  unfold ResumeWriter_init.
  match goal with |- context [write_sections ?f ?d ?w1] =>
    destruct (write_sections_blocks llm_invoke d w1) as (blocks & Hd & Hb);
    destruct (write_sections_effect llm_invoke d w1)
      as (called & rest & body & _ & Hw & _);
    unfold exec in Hd, Hw;
    destruct (write_sections f d w1) as [[[]|e] w2]
  end; simpl in *; exists blocks; rewrite Hd; subst w2;
    repeat split; auto.
Qed.

(** X17: reading back a section just written into an empty document: when
    the formatted result is a string none of whose lines starts with the
    marker, [_run] returns the title and the lines of the string, each
    trimmed and the blank ones left out, joined by newlines; the spacer and
    the styles leave no trace. *)
Theorem read_back_section (fmt : str -> str -> M formatted)
        (title content : str) (w w1 : world) (s file_path : str) :
  fmt title content w = (Returns (FStr s), w1) ->
  document w1 = [] ->
  Forall (fun l => startswith (strip l) bullet_marker = false)
         (split_on nl s) ->
  _run (fun _ => Returns
                   (document (exec (write_section_with fmt title content) w)))
       file_path
  = Returns (join nl (filter truthy (map strip (title :: split_on nl s)))).
Proof.
  intros Hf Hd Hm. unfold _run. simpl. rewrite full_text_of_filter.
  unfold exec. rewrite (write_section_with_returns _ _ _ _ Hf). simpl.
  rewrite Hd. simpl. f_equal. f_equal.
  assert (Ht : text (heading_paragraph title) = title)
    by (unfold text; simpl; apply app_nil_r).
  rewrite Ht.
  assert (G : filter truthy
                (map (fun p : paragraph => strip (text p))
                     (flat_map rendered_line (split_on nl s)
                        ++ [spacer_paragraph]))
              = filter truthy (map strip (split_on nl s))).
  { rewrite map_app, filter_app. simpl. rewrite app_nil_r.
    induction Hm as [|l ls Hl _ IH]; simpl; [reflexivity|].
    unfold rendered_line at 1. rewrite Hl.
    destruct (truthy (strip l)) eqn:E; simpl; [|exact IH].
    rewrite text_new_paragraph, strip_idempotent, E, IH. reflexivity. }
  rewrite G. reflexivity.
Qed.

Lemma read_back_section_witness :
  _run (fun _ => Returns
                   (document (exec (write_section_with identity_formatter
                                      (py "Skills")
                                      (py " Python" ++ nl :: nl :: py "Go  "))
                                   world0)))
       (py "output.docx")
  = Returns (join nl (filter truthy
                        (map strip (py "Skills"
                                      :: split_on nl (py " Python" ++ nl :: nl
                                                        :: py "Go  "))))).
Proof.
  apply (@read_back_section identity_formatter (py "Skills")
           (py " Python" ++ nl :: nl :: py "Go  ") world0 world0
           (py " Python" ++ nl :: nl :: py "Go  ") (py "output.docx")).
  - reflexivity.
  - reflexivity.
  - vm_compute. repeat constructor.
Defined.

(* ================================================================== *)
(** ** The bullet marker: claim C2 *)
(* ================================================================== *)

Lemma startswith_prefix (s p : str) :
  startswith s p = true -> exists r, s = p ++ r.
Proof.
  revert s. induction p as [|c p IH]; intros s H.
  - exists s. reflexivity.
  - destruct s as [|x s]; [discriminate H|]. simpl in H.
    apply andb_true_iff in H as [Hx Hs]. apply N.eqb_eq in Hx. subst x.
    destruct (IH s Hs) as [r ->]. exists r. reflexivity.
Qed.

Lemma starts_solid_app_inv (a b : str) :
  starts_solid (a ++ b) -> a <> [] -> starts_solid a.
Proof.
  intros (c & t & E & Hc) Ha. destruct a as [|x a]; [contradiction|].
  simpl in E. injection E as -> _. exists c, a. auto.
Qed.

Lemma lstrip_length (s : str) : List.length (lstrip s) <= List.length s.
Proof.
  destruct (lstrip_suffix s) as [ws E]. rewrite E at 2.
  rewrite length_app. lia.
Qed.

Lemma strip_length (s : str) : List.length (strip s) <= List.length s.
Proof.
  unfold strip, rstrip. rewrite length_rev.
  pose proof (lstrip_length (rev (lstrip s))) as H1.
  pose proof (lstrip_length s) as H2. rewrite length_rev in H1. lia.
Qed.

(** C2: the code does not do what the claim says for a marked line.  For
    every line whose trimmed form starts with the marker, the three code
    points of line 128, [write_para] adds a bullet-styled paragraph, but
    its text is the trimmed line without its first code point only (the
    slice [[1:]] of line 130): the last two code points of the marker stay
    at the front of the text, which is therefore never the line with the
    marker stripped. *)
Theorem write_para_marker_not_stripped (line : str) (w : world) :
  startswith (strip line) bullet_marker = true ->
  exists r,
    strip line = bullet_marker ++ r
    /\ document (exec (write_para line) w)
       = document w ++ [bullet_paragraph ([8364%N; 162%N] ++ r)]
    /\ [8364%N; 162%N] ++ r <> r
    /\ [8364%N; 162%N] ++ r <> strip r.
Proof.
  intros H. destruct (startswith_prefix _ _ H) as [r Hr]. exists r.
  split; [exact Hr|].
  assert (Hne : strip line <> []) by (rewrite Hr; discriminate).
  pose proof (strip_solid line Hne) as [_ He].
  split; [|split].
  - unfold exec, write_para. rewrite H.
    destruct (truthy (strip line)) eqn:Et;
      [|apply truthy_nonempty in Hne; congruence].
    simpl. f_equal. unfold bullet_paragraph. f_equal. f_equal.
    rewrite Hr. unfold slice_from, bullet_marker. simpl skipn.
    apply solid_strip. split.
    + exists 8364%N, (162%N :: r). split; reflexivity.
    + rewrite Hr in He. unfold bullet_marker in He.
      change ([226%N; 8364%N; 162%N] ++ r)
        with ([226%N] ++ (8364%N :: 162%N :: r)) in He.
      rewrite rev_app_distr in He.
      apply starts_solid_app_inv in He; [exact He|].
      intros E. apply rev_nil_inv in E. discriminate E.
  - intros E. apply (f_equal (@List.length char)) in E. simpl in E. lia.
  - intros E. apply (f_equal (@List.length char)) in E. simpl in E.
    pose proof (strip_length r). lia.
Qed.

Lemma write_para_marker_not_stripped_witness :
  exists r,
    strip (py "  " ++ bullet_marker ++ py " Led a team ")
    = bullet_marker ++ r
    /\ document (exec (write_para
                         (py "  " ++ bullet_marker ++ py " Led a team "))
                      world0)
       = document world0 ++ [bullet_paragraph ([8364%N; 162%N] ++ r)]
    /\ [8364%N; 162%N] ++ r <> r
    /\ [8364%N; 162%N] ++ r <> strip r.
Proof.
  apply (write_para_marker_not_stripped
           (py "  " ++ bullet_marker ++ py " Led a team ") world0).
  vm_compute. reflexivity.
Defined.

(** The same at the failing input, through [write_section]: the reply
    of [llm_bullets] starts with a marked line, and the bullet paragraph
    written for it reads as the last two code points of the marker followed
    by ' Led a team', not as 'Led a team'. *)
Example marked_line_written :
  document (exec (write_section llm_bullets (py "Recent Experience")
                    (py "led team")) world0)
  = [ heading_paragraph (py "Recent Experience");
      bullet_paragraph ([8364%N; 162%N] ++ py " Led a team");
      plain_paragraph (py "Shipped v2");
      spacer_paragraph ]
  /\ bullet_paragraph ([8364%N; 162%N] ++ py " Led a team")
     <> bullet_paragraph (py "Led a team").
Proof.
  split; [vm_compute; reflexivity|].
  intros E. vm_compute in E. discriminate E.
Qed.

(** A line that starts with the bullet U+2022 does not start with the
    marker of the source: it is written as a plain paragraph, the bullet
    kept. *)
Example real_bullet_line_written :
  startswith (8226%N :: py " Led a team") bullet_marker = false
  /\ document (exec (write_para (8226%N :: py " Led a team")) world0)
     = [plain_paragraph (8226%N :: py " Led a team")].
Proof. split; vm_compute; reflexivity. Qed.
